(** * NeoAsia Sales Order DTW tool: validation and file generation

    A shallow embedding of the validation and generation core of [app.py]
    (the functions [validate_date_format], [validate_orders],
    [validate_lines], [format_date], [safe_str], [generate_ordr_file],
    [generate_rdr1_file] and the validation block of [main]), together
    with the Python and pandas primitives these functions call. *)

From Stdlib Require Import ZArith Ascii DecimalString DecimalZ DecimalPos Decimal.
From stdpp Require Import gmap strings list fin_maps.

Local Open Scope Z_scope.
Set Warnings "-clear-no-such-hyp".

(** ** Exceptions

    Python code that fails raises; the embedding returns the exception as
    a value and threads it through [mbind]. *)

Inductive exn := ValueError | TypeError | OverflowError.

Inductive result (A : Type) :=
  | Ok (a : A)
  | Raise (e : exn).
Global Arguments Ok {A} a.
Global Arguments Raise {A} e.

Global Instance result_ret : MRet result := @Ok.
Global Instance result_bind : MBind result := λ A B f r,
  match r with Ok a => f a | Raise e => Raise e end.
Global Instance result_fmap : FMap result := λ A B f r,
  match r with Ok a => Ok (f a) | Raise e => Raise e end.

Global Instance exn_eq_dec : EqDecision exn.
Proof. solve_decision. Defined.
Global Instance result_eq_dec `{EqDecision A} : EqDecision (result A).
Proof. solve_decision. Defined.

(** ** Python strings

    A [str] is a [string]; each [ascii] stands for one code point below
    256, so [String.length] is Python's [len]. *)

Module PyStr.

Definition chars (s : string) : list ascii := String.list_ascii_of_string s.
Definition of_chars (l : list ascii) : string := String.string_of_list_ascii l.

Definition code (c : ascii) : N := N_of_ascii c.

(** [str.isspace] on one code point: the characters [str.strip()]
    removes. *)
Definition isspace (c : ascii) : bool :=
  let n := code c in
  ((9 <=? n) && (n <=? 13) || (28 <=? n) && (n <=? 32)
   || (n =? 133) || (n =? 160))%N.

(** The white space [int()] and [float()] skip around a literal: the
    information separators 28..31 are not part of it. *)
Definition isspace_num (c : ascii) : bool :=
  let n := code c in
  ((9 <=? n) && (n <=? 13) || (n =? 32) || (n =? 133) || (n =? 160))%N.

(** A decimal digit [0-9], with its value. *)
Definition digit_val (c : ascii) : option Z :=
  let n := code c in
  if ((48 <=? n) && (n <=? 57))%N then Some (Z.of_N n - 48) else None.

Definition isdecimal_char (c : ascii) : bool := bool_decide (is_Some (digit_val c)).

(** [str.isdigit] on one code point: the decimal digits and the
    superscripts U+00B2, U+00B3 and U+00B9. *)
Definition isdigit_char (c : ascii) : bool :=
  let n := code c in
  ((48 <=? n) && (n <=? 57) || (n =? 178) || (n =? 179) || (n =? 185))%N.

Fixpoint drop_while (p : ascii → bool) (l : list ascii) : list ascii :=
  match l with
  | [] => []
  | c :: l' => if p c then drop_while p l' else l
  end.

Definition strip_with (p : ascii → bool) (l : list ascii) : list ascii :=
  reverse (drop_while p (reverse (drop_while p l))).

(** [s.strip()] *)
Definition strip (s : string) : string := of_chars (strip_with isspace (chars s)).

(** [s.isdigit()]: false on the empty string. *)
Definition isdigit (s : string) : bool :=
  match chars s with
  | [] => false
  | l => forallb isdigit_char l
  end.

(** [sep.join(l)] *)
Definition join (sep : string) (l : list string) : string := String.concat sep l.

(** [s[i:j]] for [0 <= i <= j]. *)
Definition slice (i j : nat) (s : string) : string := String.substring i (j - i) s.


Definition TAB : string := String (ascii_of_nat 9) "".
Definition CRLF : string := String (ascii_of_nat 13) (String (ascii_of_nat 10) "").

End PyStr.

(** ** Python integers *)

Module PyInt.

(** [str(n)] for an [int]. *)
Definition to_str (n : Z) : string := NilZero.string_of_int (Z.to_int n).

(** The value of a run of decimal digits, most significant first. *)
Fixpoint digits_val (acc : Z) (l : list ascii) : option Z :=
  match l with
  | [] => Some acc
  | c :: l' =>
      match PyStr.digit_val c with
      | Some d => digits_val (10 * acc + d) l'
      | None => None
      end
  end.

(** Underscores in a numeric literal stand only between two digits. *)
Fixpoint underscores_ok (prev_digit : bool) (l : list ascii) : bool :=
  match l with
  | [] => true
  | c :: l' =>
      if bool_decide (c = "_"%char) then
        prev_digit
        && match l' with
           | d :: _ => PyStr.isdecimal_char d
           | [] => false
           end
        && underscores_ok false l'
      else underscores_ok (PyStr.isdecimal_char c) l'
  end.

Definition remove_underscores (l : list ascii) : list ascii :=
  filter (λ c, c ≠ "_"%char) l.

Definition split_sign (l : list ascii) : bool * list ascii :=
  match l with
  | c :: l' =>
      if bool_decide (c = "-"%char) then (true, l')
      else if bool_decide (c = "+"%char) then (false, l')
      else (false, l)
  | [] => (false, [])
  end.

(** [int(s)] for a [str]: surrounding white space, an optional sign and
    decimal digits, single underscores allowed between digits. *)
Definition of_str (s : string) : result Z :=
  let l := PyStr.strip_with PyStr.isspace_num (PyStr.chars s) in
  if negb (underscores_ok false l) then Raise ValueError else
  let '(neg, body) := split_sign (remove_underscores l) in
  match body with
  | [] => Raise ValueError
  | _ =>
      match digits_val 0 body with
      | Some n => Ok (if neg then - n else n)
      | None => Raise ValueError
      end
  end.

End PyInt.

(** ** Python floats

    A [float] is a binary64 value: not-a-number, an infinity, or the finite
    value [(-1)^neg * m * 2^e] (with [m = 0] for the two zeros).  The
    operations below are the ones [app.py] applies to floats: [int(f)],
    [f == n] and [f <= n] against an [int], [float(n)], [float(s)] and
    [str(f)]. *)

Module PyFloat.

Inductive t :=
  | NaN
  | Inf (neg : bool)
  | Fin (neg : bool) (m : N) (e : Z).

Global Instance eq_dec : EqDecision t.
Proof. solve_decision. Defined.

Definition isnan (f : t) : bool :=
  match f with NaN => true | _ => false end.

Definition signed (neg : bool) (a : Z) : Z := if neg then - a else a.

(** [int(f)]: truncation towards zero; an infinity raises
    [OverflowError] and a NaN [ValueError]. *)
Definition to_int (f : t) : result Z :=
  match f with
  | NaN => Raise ValueError
  | Inf _ => Raise OverflowError
  | Fin neg m e => Ok (signed neg (Z.shiftl (Z.of_N m) e))
  end.

(** The finite float has no fractional part. *)
Definition is_integral (m : N) (e : Z) : bool :=
  Z.shiftl (Z.shiftl (Z.of_N m) e) (- e) =? Z.of_N m.

(** [f == n] for an [int] [n]: Python compares the exact values. *)
Definition eq_int (f : t) (n : Z) : bool :=
  match f with
  | Fin neg m e => is_integral m e && (signed neg (Z.shiftl (Z.of_N m) e) =? n)
  | _ => false
  end.

(** [f <= n] for an [int] [n], on the exact values. *)
Definition le_int (f : t) (n : Z) : bool :=
  match f with
  | NaN => false
  | Inf neg => neg
  | Fin neg m e =>
      if 0 <=? e then signed neg (Z.of_N m * 2 ^ e) <=? n
      else signed neg (Z.of_N m) <=? n * 2 ^ (- e)
  end.

(** The binary64 value nearest to [p / q] (for [0 <= p], [0 < q]), ties
    to even; an infinity beyond the largest finite value. *)
Definition round_nearest_even (neg : bool) (p q : Z) : t :=
  if p =? 0 then Fin neg 0 0 else
  let quo E := if 0 <=? E then p / (q * 2 ^ E) else (p * 2 ^ (- E)) / q in
  let E1 := Z.log2 p - Z.log2 q - 52 in
  let E2 := if quo E1 <? 2 ^ 52 then E1 - 1 else E1 in
  let E := Z.max E2 (-1074) in
  let num := if 0 <=? E then p else p * 2 ^ (- E) in
  let den := if 0 <=? E then q * 2 ^ E else q in
  let M := num / den in
  let M' := match 2 * (num mod den) ?= den with
            | Lt => M
            | Gt => M + 1
            | Eq => if Z.even M then M else M + 1
            end in
  if (971 <? E) || ((E =? 971) && (2 ^ 53 <=? M')) then Inf neg
  else Fin neg (Z.to_N M') E.

(** [float(n)] for an [int]: [OverflowError] when [n] is too large. *)
Definition of_int (n : Z) : result t :=
  match round_nearest_even (n <? 0) (Z.abs n) 1 with
  | Inf _ => Raise OverflowError
  | f => Ok f
  end.

Definition lower (c : ascii) : ascii :=
  let n := PyStr.code c in
  if ((65 <=? n) && (n <=? 90))%N then ascii_of_N (n + 32) else c.

Fixpoint span_digits (l : list ascii) : list ascii * list ascii :=
  match l with
  | c :: l' =>
      if PyStr.isdecimal_char c
      then let '(ds, rest) := span_digits l' in (c :: ds, rest)
      else ([], l)
  | [] => ([], [])
  end.

(** The exponent part of a literal: empty, or [e] or [E], an optional
    sign and at least one digit, up to the end of the text. *)
Definition exponent (l : list ascii) : option Z :=
  match l with
  | [] => Some 0
  | c :: l1 =>
      if bool_decide (lower c = "e"%char) then
        let '(eneg, l2) := PyInt.split_sign l1 in
        match span_digits l2 with
        | ((_ :: _) as ds, []) => signed eneg <$> PyInt.digits_val 0 ds
        | _ => None
        end
      else None
  end.

(** [float(s)] for a [str]: surrounding white space, an optional sign,
    then [inf], [infinity] or [nan] in any case, or a decimal literal
    with an optional fraction and exponent; [ValueError] otherwise. *)
Definition of_str (s : string) : result t :=
  let l := PyStr.strip_with PyStr.isspace_num (PyStr.chars s) in
  if negb (PyInt.underscores_ok false l) then Raise ValueError else
  let '(neg, body) := PyInt.split_sign (PyInt.remove_underscores l) in
  let low := lower <$> body in
  if bool_decide (low = PyStr.chars "inf" ∨ low = PyStr.chars "infinity")
  then Ok (Inf neg)
  else if bool_decide (low = PyStr.chars "nan") then Ok NaN
  else
    let '(ip, r1) := span_digits body in
    let '(fp, r2) := match r1 with
                     | c :: r => if bool_decide (c = "."%char)
                                 then span_digits r else ([], r1)
                     | [] => ([], r1)
                     end in
    match ip ++ fp, PyInt.digits_val 0 (ip ++ fp), exponent r2 with
    | _ :: _, Some d, Some x =>
        let k := x - Z.of_nat (length fp) in
        Ok (if 0 <=? k then round_nearest_even neg (d * 10 ^ k) 1
            else round_nearest_even neg d (10 ^ (- k)))
    | _, _, _ => Raise ValueError
    end.

(** *** [str(f)]: the shortest decimal text that reads back as [f] *)

(** [a * 10^k] compared with [b * 2^j]. *)
Definition cmp10_2 (a k b j : Z) : comparison :=
  (a * 10 ^ Z.max k 0 * 2 ^ Z.max (- j) 0)
    ?= (b * 2 ^ Z.max j 0 * 10 ^ Z.max (- k) 0).

(** The binary64 significand and exponent of [m * 2^e]. *)
Definition normalize (m e : Z) : Z * Z :=
  let E := Z.max (e + Z.log2 m + 1 - 53) (-1074) in
  (Z.shiftl m (e - E), E).

(** [c * 10^q] reads back as [M * 2^E]: it lies between the midpoints
    to the two neighbouring floats (the midpoints themselves when [M]
    is even). *)
Definition reads_back (M E c q : Z) : bool :=
  let low := if (M =? 2 ^ 52) && (-1074 <? E) then 4 * M - 1 else 4 * M - 2 in
  let high := 4 * M + 2 in
  match cmp10_2 c q low (E - 2), cmp10_2 c q high (E - 2) with
  | Gt, Lt => true
  | Eq, Lt | Gt, Eq => Z.even M
  | _, _ => false
  end.

(** [floor (M * 2^E / 10^q)] *)
Definition floor10 (M E q : Z) : Z :=
  (M * 2 ^ Z.max E 0 * 10 ^ Z.max (- q) 0)
    / (2 ^ Z.max (- E) 0 * 10 ^ Z.max q 0).

(** [floor (log10 (M * 2^E))] *)
Definition log10_floor (M E : Z) : Z :=
  let est := (Z.log2 M + E) * 30103 / 100000 in
  let below t := match cmp10_2 1 t M E with Gt => false | _ => true end in
  if below (est + 2) then est + 2
  else if below (est + 1) then est + 1
  else if below est then est
  else est - 1.

(** The decimal [c * 10^q] with the fewest digits [n, n+1, ...] that
    reads back as [M * 2^E], the nearest one when two do. *)
Fixpoint shortest (fuel : nat) (M E T n : Z) : Z * Z :=
  let q := T - n + 1 in
  let lo := floor10 M E q in
  let hi := lo + 1 in
  match fuel with
  | O => (lo, q)
  | S fuel' =>
      match reads_back M E lo q, reads_back M E hi q with
      | true, true =>
          match cmp10_2 (lo + hi) q (2 * M) E with
          | Gt => (lo, q)
          | Lt => (hi, q)
          | Eq => (if Z.even lo then lo else hi, q)
          end
      | true, false => (lo, q)
      | false, true => (hi, q)
      | false, false => shortest fuel' M E T (n + 1)
      end
  end.

Definition zeros (n : Z) : list ascii := replicate (Z.to_nat n) "0"%char.

Definition strip_trailing_zeros (l : list ascii) : list ascii :=
  reverse (PyStr.drop_while (λ c, bool_decide (c = "0"%char)) (reverse l)).

(** The text of the digits [sig] with the decimal point after [decpt]
    of them: exponent notation outside [1e-4 <= x < 1e16]. *)
Definition format (sig : list ascii) (decpt : Z) : list ascii :=
  let n := Z.of_nat (length sig) in
  if (decpt <=? -4) || (16 <? decpt) then
    let x := decpt - 1 in
    let xs := PyStr.chars (PyInt.to_str (Z.abs x)) in
    let mant := match sig with
                | d :: ((_ :: _) as r) => d :: "."%char :: r
                | _ => sig
                end in
    mant ++ ["e"%char; if x <? 0 then "-"%char else "+"%char]
         ++ (if Z.abs x <? 10 then "0"%char :: xs else xs)
  else if decpt <=? 0 then
    "0"%char :: "."%char :: zeros (- decpt) ++ sig
  else if n <=? decpt then
    sig ++ zeros (decpt - n) ++ [ "."%char; "0"%char ]
  else
    take (Z.to_nat decpt) sig ++ "."%char :: drop (Z.to_nat decpt) sig.

Definition repr_finite (m : N) (e : Z) : list ascii :=
  match m with
  | N0 => PyStr.chars "0.0"
  | _ =>
      let '(M, E) := normalize (Z.of_N m) e in
      let '(c, q) := shortest 17 M E (log10_floor M E) 1 in
      let ds := PyStr.chars (PyInt.to_str c) in
      format (strip_trailing_zeros ds) (Z.of_nat (length ds) + q)
  end.

(** [str(f)] (and [repr(f)]). *)
Definition to_str (f : t) : string :=
  match f with
  | NaN => "nan"
  | Inf neg => if neg then "-inf" else "inf"
  | Fin neg m e =>
      PyStr.of_chars ((if neg then ["-"%char] else []) ++ repr_finite m e)
  end.

End PyFloat.

(** ** Cell values and pandas tables *)

(** What a cell of a row holds: [None] (also [NaT], [pd.NA]), a [str], an
    [int], a [float] (a blank numeric cell is the float NaN), or a date or
    time object ([Timestamp], [datetime.time]) known by the text [str()]
    gives for it. *)
Inductive value :=
  | VNone
  | VStr (s : string)
  | VInt (n : Z)
  | VFloat (f : PyFloat.t)
  | VDate (text : string).

Global Instance value_eq_dec : EqDecision value.
Proof. solve_decision. Defined.

(** [pd.isna(v)] *)
Definition pd_isna (v : value) : bool :=
  match v with
  | VNone => true
  | VFloat f => PyFloat.isnan f
  | _ => false
  end.

(** [pd.notna(v)] *)
Definition pd_notna (v : value) : bool := negb (pd_isna v).

(** [str(v)] *)
Definition py_str (v : value) : string :=
  match v with
  | VNone => "None"
  | VStr s => s
  | VInt n => PyInt.to_str n
  | VFloat f => PyFloat.to_str f
  | VDate text => text
  end.

(** [float(v)] *)
Definition py_float (v : value) : result PyFloat.t :=
  match v with
  | VNone => Raise TypeError
  | VStr s => PyFloat.of_str s
  | VInt n => PyFloat.of_int n
  | VFloat f => Ok f
  | VDate _ => Raise TypeError
  end.

(** A row as [iterrows] yields it: a [Series] from column label to cell. *)
Abbreviation Series := (gmap string value).

(** [row.get(key, default)]; [row.get(key)] is [get row key VNone]. *)
Definition get (row : Series) (key : string) (default : value) : value :=
  match row !! key with
  | Some v => v
  | None => default
  end.

(** A [DataFrame] as [pd.read_excel] builds it: the column labels and
    the cells of each row, under the default index [0, 1, 2, ...]. *)
Record DataFrame := {
  columns : list string;
  values : list (list value);
}.

(** [df.empty]: no rows or no columns. *)
Definition empty (df : DataFrame) : bool :=
  bool_decide (columns df = [] ∨ values df = []).

(** The rows of the table, each a [Series] labelled by the columns. *)
Definition series (labels : list string) (cells : list value) : Series :=
  list_to_map (zip labels cells).

Definition rows (df : DataFrame) : list Series :=
  series (columns df) <$> values df.

(** [df.iterrows()] *)
Definition iterrows (df : DataFrame) : list (nat * Series) :=
  imap (λ idx row, (idx, row)) (rows df).

(** A [for] loop whose body updates the loop state or raises; [continue]
    is a body that returns the state unchanged. *)
Fixpoint for_each {A S : Type} (body : S → A → result S) (l : list A) (s : S)
    : result S :=
  match l with
  | [] => Ok s
  | x :: l' => s' ← body s x; for_each body l' s'
  end.

(** ** Constants: the DTW file structure *)

Definition ORDR_TOTAL_COLS : nat := 271.
Definition RDR1_TOTAL_COLS : nat := 244.

(** ORDR field positions (0-based) *)
Definition ORDR_FIELDS : gmap string nat := list_to_map [
  ("DocNum", 0); ("DocType", 2); ("DocDate", 5); ("DocDueDate", 6);
  ("CardCode", 7); ("SalesPersonCode", 21); ("U_AllowDOInv_Dep", 198);
  ("U_GSTSGDRate", 202) ]%nat.

(** RDR1 field positions (0-based) *)
Definition RDR1_FIELDS : gmap string nat := list_to_map [
  ("ParentKey", 0); ("LineNum", 1); ("ItemCode", 2); ("Quantity", 4);
  ("Price", 6); ("WarehouseCode", 13); ("SalesPersonCode", 14);
  ("AccountCode", 17); ("CostingCode", 20); ("VatGroup", 23);
  ("COGSCostingCode", 81); ("CostingCode2", 87); ("CostingCode3", 88);
  ("CostingCode4", 89); ("CostingCode5", 90); ("COGSCostingCode2", 97);
  ("COGSCostingCode3", 98); ("COGSCostingCode4", 99);
  ("COGSCostingCode5", 100); ("U_PermitNum", 171); ("U_GSTSGDRate", 183) ]%nat.

(** ** Header definitions (complete DTW structure) *)

Definition ORDR_HEADER_ROW1 : list string := [
  "DocNum"; "DocEntry"; "DocType"; "HandWritten"; "Printed"; "DocDate"; "DocDueDate"; "CardCode"; "CardName"; "Address";
  "NumAtCard"; "DocTotal"; "AttachmentEntry"; "DocCurrency"; "DocRate"; "Reference1"; "Reference2"; "Comments"; "JournalMemo"; "PaymentGroupCode";
  "DocTime"; "SalesPersonCode"; "TransportationCode"; "Confirmed"; "ImportFileNum"; "SummeryType"; "ContactPersonCode"; "ShowSCN"; "Series"; "TaxDate";
  "PartialSupply"; "DocObjectCode"; "ShipToCode"; "Indicator"; "FederalTaxID"; "DiscountPercent"; "PaymentReference"; "DocTotalFc"; "Form1099"; "Box1099";
  "RevisionPo"; "RequriedDate"; "CancelDate"; "BlockDunning"; "Pick"; "PaymentMethod"; "PaymentBlock"; "PaymentBlockEntry"; "CentralBankIndicator"; "MaximumCashDiscount";
  "Project"; "ExemptionValidityDateFrom"; "ExemptionValidityDateTo"; "WareHouseUpdateType"; "Rounding"; "ExternalCorrectedDocNum"; "InternalCorrectedDocNum"; "DeferredTax"; "TaxExemptionLetterNum"; "AgentCode";
  "NumberOfInstallments"; "ApplyTaxOnFirstInstallment"; "VatDate"; "DocumentsOwner"; "FolioPrefixString"; "FolioNumber"; "DocumentSubType"; "BPChannelCode"; "BPChannelContact"; "Address2";
  "PayToCode"; "ManualNumber"; "UseShpdGoodsAct"; "IsPayToBank"; "PayToBankCountry"; "PayToBankCode"; "PayToBankAccountNo"; "PayToBankBranch"; "BPL_IDAssignedToInvoice"; "DownPayment";
  "ReserveInvoice"; "LanguageCode"; "TrackingNumber"; "PickRemark"; "ClosingDate"; "SequenceCode"; "SequenceSerial"; "SeriesString"; "SubSeriesString"; "SequenceModel";
  "UseCorrectionVATGroup"; "DownPaymentAmount"; "DownPaymentPercentage"; "DownPaymentType"; "DownPaymentAmountSC"; "DownPaymentAmountFC"; "VatPercent"; "ServiceGrossProfitPercent"; "OpeningRemarks"; "ClosingRemarks";
  "RoundingDiffAmount"; "ControlAccount"; "InsuranceOperation347"; "ArchiveNonremovableSalesQuotation"; "GTSChecker"; "GTSPayee"; "ExtraMonth"; "ExtraDays"; "CashDiscountDateOffset"; "StartFrom";
  "NTSApproved"; "ETaxWebSite"; "ETaxNumber"; "NTSApprovedNumber"; "EDocGenerationType"; "EDocSeries"; "EDocNum"; "EDocExportFormat"; "EDocStatus"; "EDocErrorCode";
  "EDocErrorMessage"; "DownPaymentStatus"; "GroupSeries"; "GroupNumber"; "GroupHandWritten"; "ReopenOriginalDocument"; "ReopenManuallyClosedOrCanceledDocument"; "CreateOnlineQuotation"; "POSEquipmentNumber"; "POSManufacturerSerialNumber";
  "POSCashierNumber"; "ApplyCurrentVATRatesForDownPaymentsToDraw"; "ClosingOption"; "SpecifiedClosingDate"; "OpenForLandedCosts"; "RelevantToGTS"; "AnnualInvoiceDeclarationReference"; "Supplier"; "Releaser"; "Receiver";
  "BlanketAgreementNumber"; "IsAlteration"; "AssetValueDate"; "DocumentDelivery"; "AuthorizationCode"; "StartDeliveryDate"; "StartDeliveryTime"; "EndDeliveryDate"; "EndDeliveryTime"; "VehiclePlate";
  "ATDocumentType"; "ElecCommStatus"; "ReuseDocumentNum"; "ReuseNotaFiscalNum"; "PrintSEPADirect"; "FiscalDocNum"; "POSDailySummaryNo"; "POSReceiptNo"; "PointOfIssueCode"; "Letter";
  "FolioNumberFrom"; "FolioNumberTo"; "InterimType"; "RelatedType"; "RelatedEntry"; "SAPPassport"; "DocumentTaxID"; "DateOfReportingControlStatementVAT"; "ReportingSectionControlStatementVAT"; "ExcludeFromTaxReportControlStatementVAT";
  "POS_CashRegister"; "CreateQRCodeFrom"; "PriceMode"; "CommissionTrade"; "CommissionTradeReturn"; "UseBillToAddrToDetermineTax"; "Cig"; "Cup"; "FatherCard"; "FatherType";
  "ShipState"; "ShipPlace"; "CustOffice"; "FCI"; "AddLegIn"; "LegTextF"; "IndFinal"; "U_LoanExpDate"; "U_Transfer_Type"; "U_IGN_RsvDue";
  "U_IGN_RsvSONum"; "U_PCH_ApprvPay"; "U_RDR_FinancingAppr"; "U_Star_Acct"; "U_AllowDOInv_Dep"; "U_CustPO_Received"; "U_RCN_Num"; "U_POR_InventoryValue"; "U_Appr_LowSlsPrice"; "U_Appr_PO_Stock";
  "U_Appr_PO_NStock1"; "U_Appr_PO_NStock2"; "U_GSTSGDRate"; "U_GSTSGDAmt"; "U_Vessel"; "U_LineBusiness"; "U_RDR_IgnoreSpcTerms"; "U_Dep_Required"; "U_Dep_Received"; "U_LoanAddr";
  "U_TRF_SlpName"; "U_INM_Purpose"; "U_ELTO_RevSchCrt"; "U_ELTO_RevSchVal"; "U_ELTO_RevCrtdDat"; "U_ELTO_BillSchCrt"; "U_ELTO_BillSchVal"; "U_ELTO_BillCrtDat"; "U_ELTO_LseTrf"; "U_ELTO_LseTransNo";
  "U_Appr_DiffSQ"; "U_FIN_TotalBefDisc"; "U_FIN_LessDisc"; "U_FIN_AddGST"; "U_FIN_LessDeposit"; "U_FIN_LessDepGST"; "U_RefreshInfo"; "U_PL_Remarks"; "U_RDR_SellPrcSample"; "U_Appr_Sample";
  "U_FIN_GSTDueFmFinc"; "U_IntRemarks"; "U_ImportConsign"; "U_EndUserCode"; "U_EndUserName"; "U_TRF_AccList"; "U_ELTO_RSVCode"; "U_ELTO_ContactDetail"; "U_ELTO_RsvComment"; "U_FileName";
  "U_RDocNum"; "U_Warehouse_Code"; "U_Warehouse"; "U_P_Approval_Code"; "U_Customer_State"; "U_Cust_Territory"; "U_Team_Code"; "U_Detailman_Code"; "U_ContractNo"; "U_ApplNeoComm";
  "U_SampleInv"; "U_ETA"; "U_RecEntry"; "U_WMS_BasePick"; "U_AutoPick"; "U_URGENT"; "U_WMS_RefNo"; "U_WMS_FromHandheld"; "U_WMS_DeviceID"; "U_WMS_ScnUsr";
  "U_DeliveryCompt"; "U_DeliveryDate"; "U_CAPPSUpdate"; "U_CAPPSUpdDat"; "U_CAPPSNum"; "U_OrigFile"; "U_OrigName"; "U_ServFile"; "U_ServName"; "U_CAPPSStsUpd";
  "U_CAPPSStsDat"
].

Definition ORDR_HEADER_ROW2 : list string := [
  "DocNum"; "DocEntry"; "DocType"; "Handwrtten"; "Printed"; "DocDate"; "DocDueDate"; "CardCode"; "CardName"; "Address";
  "NumAtCard"; "DocTotal"; "AtcEntry"; "DocCur"; "DocRate"; "Ref1"; "Ref2"; "Comments"; "JrnlMemo"; "GroupNum";
  "DocTime"; "SlpCode"; "TrnspCode"; "Confirmed"; "ImportEnt"; "SummryType"; "CntctCode"; "ShowSCN"; "Series"; "TaxDate";
  "PartSupply"; "ObjType"; "ShipToCode"; "Indicator"; "LicTradNum"; "DiscPrcnt"; "PaymentRef"; "UserSign"; "DocTotalFC"; "Form1099";
  "Box1099"; "RevisionPo"; "ReqDate"; "CancelDate"; "BlockDunn"; "Pick"; "PeyMethod"; "PayBlock"; "PayBlckRef"; "CntrlBnk";
  "MaxDscn"; "Project"; "FromDate"; "ToDate"; "UpdInvnt"; "Rounding"; "CorrExt"; "CorrInv"; "DeferrTax"; "LetterNum";
  "AgentCode"; "Installmnt"; "VATFirst"; "VatDate"; "OwnerCode"; "FolioPref"; "FolioNum"; "DocSubType"; "BPChCode"; "BPChCntc";
  "Address2"; "PayToCode"; "ManualNum"; "UseShpdGd"; "IsPaytoBnk"; "BnkCntry"; "BankCode"; "BnkAccount"; "BnkBranch"; "BPLId";
  "DpmPrcnt"; "isIns"; "LangCode"; "TrackNo"; "PickRmrk"; "ClsDate"; "SeqCode"; "Serial"; "SeriesStr"; "SubStr";
  "Model"; "UseCorrVat"; "DpmAmnt"; "DpmPrcnt"; "Posted"; "DpmAmntSC"; "DpmAmntFC"; "VatPercent"; "SrvGpPrcnt"; "Header";
  "Footer"; "RoundDif"; "CtlAccount"; "InsurOp347"; "IgnRelDoc"; "Checker"; "Payee"; "ExtraMonth"; "ExtraDays"; "CdcOffset";
  "PayDuMonth"; "NTSApprov"; "NTSWebSite"; "NTSeTaxNo"; "NTSApprNo"; "EDocGenTyp"; "ESeries"; "EDocNum"; "EDocExpFrm"; "EDocStatus";
  "EDocErrCod"; "EDocErrMsg"; "DpmStatus"; "PQTGrpSer"; "PQTGrpNum"; "PQTGrpHW"; "ReopOriDoc"; "ReopManCls"; "OnlineQuo"; "POSEqNum";
  "POSManufSN"; "POSCashN"; "DpmAsDscnt"; "ClosingOpt"; "SpecDate"; "OpenForLaC"; "GTSRlvnt"; "AnnInvDecR"; "Supplier"; "Releaser";
  "Receiver"; "AgrNo"; "IsAlt"; "AssetDate"; "DocDlvry"; "AuthCode"; "StDlvDate"; "StDlvTime"; "EndDlvDate"; "EndDlvTime";
  "VclPlate"; "AtDocType"; "ElCoStatus"; "IsReuseNum"; "IsReuseNFN"; "PrintSEPA"; "FiscDocNum"; "ZrdAbs"; "POSRcptNo"; "PTICode";
  "Letter"; "FolNumFrom"; "FolNumTo"; "InterimTyp"; "RelatedTyp"; "RelatedEnt"; "SAPPassprt"; "DocTaxID"; "DateReport"; "RepSection";
  "ExclTaxRep"; "PosCashReg"; "QRCodeSrc"; "PriceMode"; "ShipToCode"; "ComTrade"; "ComTradeRt"; "UseBilAddr"; "CIG"; "CUP";
  "FatherCard"; "FatherType"; "ShipState"; "ShipPlace"; "CustOffice"; "FCI"; "AddLegIn"; "LegTextF"; "DANFELgTxt"; "IndFinal";
  "DataVers"; "U_LoanExpDate"; "U_Transfer_Type"; "U_IGN_RsvDue"; "U_IGN_RsvSONum"; "U_PCH_ApprvPay"; "U_RDR_FinancingAppr"; "U_Star_Acct"; "U_AllowDOInv_Dep"; "U_CustPO_Received";
  "U_RCN_Num"; "U_POR_InventoryValue"; "U_Appr_LowSlsPrice"; "U_Appr_PO_Stock"; "U_Appr_PO_NStock1"; "U_Appr_PO_NStock2"; "U_GSTSGDRate"; "U_GSTSGDAmt"; "U_Vessel"; "U_LineBusiness";
  "U_RDR_IgnoreSpcTerms"; "U_Dep_Required"; "U_Dep_Received"; "U_LoanAddr"; "U_TRF_SlpName"; "U_INM_Purpose"; "U_ELTO_RevSchCrt"; "U_ELTO_RevSchVal"; "U_ELTO_RevCrtdDat"; "U_ELTO_BillSchCrt";
  "U_ELTO_BillSchVal"; "U_ELTO_BillCrtDat"; "U_ELTO_LseTrf"; "U_ELTO_LseTransNo"; "U_Appr_DiffSQ"; "U_FIN_TotalBefDisc"; "U_FIN_LessDisc"; "U_FIN_AddGST"; "U_FIN_LessDeposit"; "U_FIN_LessDepGST";
  "U_RefreshInfo"; "U_PL_Remarks"; "U_RDR_SellPrcSample"; "U_Appr_Sample"; "U_FIN_GSTDueFmFinc"; "U_IntRemarks"; "U_ImportConsign"; "U_EndUserCode"; "U_EndUserName"; "U_TRF_AccList";
  "U_ELTO_RSVCode"; "U_ELTO_ContactDetail"; "U_ELTO_RsvComment"; "U_FileName"; "U_RDocNum"; "U_Warehouse_Code"; "U_Warehouse"; "U_P_Approval_Code"; "U_Customer_State"; "U_Cust_Territory";
  "U_Team_Code"; "U_Detailman_Code"; "U_ContractNo"; "U_ApplNeoComm"; "U_SampleInv"; "U_ETA"; "U_RecEntry"; "U_WMS_BasePick"; "U_AutoPick"; "U_URGENT";
  "U_WMS_RefNo"; "U_WMS_FromHandheld"; "U_WMS_DeviceID"; "U_WMS_ScnUsr"; "U_DeliveryCompt"; "U_DeliveryDate"; "U_CAPPSUpdate"; "U_CAPPSUpdDat"; "U_CAPPSNum"; "U_OrigFile";
  "U_OrigName"
].

Definition RDR1_HEADER_ROW1 : list string := [
  "ParentKey"; "LineNum"; "ItemCode"; "ItemDescription"; "Quantity"; "ShipDate"; "Price"; "PriceAfterVAT"; "Currency"; "Rate";
  "DiscountPercent"; "VendorNum"; "SerialNum"; "WarehouseCode"; "SalesPersonCode"; "CommisionPercent"; "TreeType"; "AccountCode"; "UseBaseUnits"; "SupplierCatNum";
  "CostingCode"; "ProjectCode"; "BarCode"; "VatGroup"; "Height1"; "Hight1Unit"; "Height2"; "Height2Unit"; "Lengh1"; "Lengh1Unit";
  "Lengh2"; "Lengh2Unit"; "Weight1"; "Weight1Unit"; "Weight2"; "Weight2Unit"; "Factor1"; "Factor2"; "Factor3"; "Factor4";
  "BaseType"; "BaseEntry"; "BaseLine"; "Volume"; "VolumeUnit"; "Width1"; "Width1Unit"; "Width2"; "Width2Unit"; "Address";
  "TaxCode"; "TaxType"; "TaxLiable"; "BackOrder"; "FreeText"; "ShippingMethod"; "CorrectionInvoiceItem"; "CorrInvAmountToStock"; "CorrInvAmountToDiffAcct"; "WTLiable";
  "DeferredTax"; "MeasureUnit"; "UnitsOfMeasurment"; "LineTotal"; "TaxPercentagePerRow"; "TaxTotal"; "ConsumerSalesForecast"; "ExciseAmount"; "CountryOrg"; "SWW";
  "TransactionType"; "DistributeExpense"; "RowTotalFC"; "CFOPCode"; "CSTCode"; "Usage"; "TaxOnly"; "UnitPrice"; "LineStatus"; "PackageQuantity";
  "LineType"; "COGSCostingCode"; "COGSAccountCode"; "ChangeAssemlyBoMWarehouse"; "GrossBuyPrice"; "GrossBase"; "GrossProfitTotalBasePrice"; "CostingCode2"; "CostingCode3"; "CostingCode4";
  "CostingCode5"; "ItemDetails"; "LocationCode"; "ActualDeliveryDate"; "ExLineNo"; "RequiredDate"; "RequiredQuantity"; "COGSCostingCode2"; "COGSCostingCode3"; "COGSCostingCode4";
  "COGSCostingCode5"; "CSTforIPI"; "CSTforPIS"; "CSTforCOFINS"; "CreditOriginCode"; "WithoutInventoryMovement"; "AgreementNo"; "AgreementRowNumber"; "ActualBaseEntry"; "ActualBaseLine";
  "DocEntry"; "Surpluses"; "DefectAndBreakup"; "Shortages"; "ConsiderQuantity"; "PartialRetirement"; "RetirementQuantity"; "RetirementAPC"; "ThirdParty"; "PoNum";
  "PoItmNum"; "ExpenseType"; "ReceiptNumber"; "ExpenseOperationType"; "FederalTaxID"; "GrossProfit"; "GrossProfitFC"; "GrossProfitSC"; "UoMEntry"; "InventoryQuantity";
  "ParentLineNum"; "Incoterms"; "TransportMode"; "NatureOfTransaction"; "DestinationCountryForImport"; "DestinationRegionForImport"; "OriginCountryForExport"; "OriginRegionForExport"; "ChangeInventoryQuantityIndependently"; "FreeOfChargeBP";
  "SACEntry"; "HSNEntry"; "GrossPrice"; "GrossTotal"; "GrossTotalFC"; "NCMCode"; "NVECode"; "IndEscala"; "CtrSealQty"; "CNJPMan";
  "CESTCode"; "UFFiscalBenefitCode"; "ReverseCharge"; "ShipToCode"; "ShipToDescription"; "OwnerCode"; "ExternalCalcTaxRate"; "ExternalCalcTaxAmount"; "StandardItemIdentification"; "CommodityClassification";
  "UnencumberedReason"; "CUSplit"; "U_ZL_SlpCode"; "U_ZL_SlpName"; "U_ZL_CardCode"; "U_ZL_CardName"; "U_ZL_InvoiceNum"; "U_ZL_ItemCode"; "U_ZL_ItemName"; "U_BonusItem";
  "U_HasAlternativeItem"; "U_PermitNum"; "U_Has_EPoint"; "U_PI_Qty"; "U_PI_Price"; "U_Redemption"; "U_EPoint_Redeemed"; "U_Rebate_RefNum"; "U_SLS_Remarks1"; "U_SLS_Remarks2";
  "U_SLS_Remarks3"; "U_SLS_Remarks4"; "U_SLS_Remarks5"; "U_GSTSGDRate"; "U_GSTSGDAmt"; "U_Related_SO_Number"; "U_Related_SO_LineNum"; "U_QUT_Calc_BOM_Cost"; "U_RDR_HasSpcTerms"; "U_RDR_SpcPayTerms";
  "U_TRF_SerialNum"; "U_ELTO_DefIncInd"; "U_ELTO_ConStrDat"; "U_ELTO_ConEndDat"; "U_ELTO_FreqBill"; "U_ELTO_FreqAdvRev"; "U_ELTO_BillStrDat"; "U_ELTO_LseQty"; "U_ELTO_CustPO"; "U_ELTO_EstBillAmt";
  "U_ELTO_BillId"; "U_ELTO_BillLine"; "U_ELTO_NoCustPOApp"; "U_ELTO_Lease"; "U_ELTO_LseItmCde"; "U_ELTO_LseItmDsc"; "U_ELTO_LseWhs"; "U_ELTO_LseDlvQty"; "U_ELTO_LseRtnQty"; "U_ELTO_RevSchType";
  "U_ELTO_ContractQty"; "U_ELTO_QtyConPrice"; "U_ELTO_Prorata"; "U_ELTO_BillPeriodFr"; "U_ELTO_BillPeriodTo"; "U_ELTO_BaseDocEntry"; "U_ELTO_BaseDocNum"; "U_ELTO_BaseRow"; "U_FIN_Shown"; "U_PL_CartonNum";
  "U_PL_KgCarton"; "U_PL_MYRegNum"; "U_TRF_VIT_Prc"; "U_TRF_SellingPrice"; "U_UnitPriceBP"; "U_POCountry"; "U_Invoice_No"; "U_Invoice_Item"; "U_Return_Ref_No"; "U_P_Customer_Code";
  "U_ZP_Item_Code"; "U_Credit_Reason"; "U_List_Price"; "U_ZP_Customer_Code"; "U_Customer_Name"; "U_ZP_Invoice_Item"; "U_Customer_State"; "U_Cust_Territory"; "U_TempDivision"; "U_RecLines";
  "U_COO"; "U_TfrBinTo"; "U_TrfFromBin"; "U_GRN"
].

Definition RDR1_HEADER_ROW2 : list string := [
  "DocNum"; "LineNum"; "ItemCode"; "Dscription"; "Quantity"; "ShipDate"; "Price"; "PriceAfVAT"; "Currency"; "Rate";
  "DiscPrcnt"; "VendorNum"; "SerialNum"; "WhsCode"; "SlpCode"; "Commission"; "TreeType"; "AcctCode"; "UseBaseUn"; "SubCatNum";
  "OcrCode"; "Project"; "CodeBars"; "VatGroup"; "Height1"; "Hght1Unit"; "Height2"; "Hght2Unit"; "Length1"; "Len1Unit";
  "length2"; "Len2Unit"; "Weight1"; "Wght1Unit"; "Weight2"; "Wght2Unit"; "Factor1"; "Factor2"; "Factor3"; "Factor4";
  "BaseType"; "BaseEntry"; "BaseLine"; "Volume"; "VolUnit"; "Width1"; "Wdth1Unit"; "Width2"; "Wdth2Unit"; "Address";
  "TaxCode"; "TaxType"; "TaxStatus"; "BackOrdr"; "FreeTxt"; "TrnsCode"; "CEECFlag"; "ToStock"; "ToDiff"; "WtLiable";
  "DeferrTax"; "unitMsr"; "NumPerMsr"; "LineTotal"; "VatPrcnt"; "VatSum"; "ConsumeFCT"; "ExciseAmt"; "CountryOrg"; "SWW";
  "TranType"; "DistribExp"; "TotalFrgn"; "CFOPCode"; "CSTCode"; "Usage"; "TaxOnly"; "PriceBefDi"; "LineStatus"; "PackQty";
  "LineType"; "CogsOcrCod"; "CogsAcct"; "ChgAsmBoMW"; "GrossBuyPr"; "GrossBase"; "GPTtlBasPr"; "OcrCode2"; "OcrCode3"; "OcrCode4";
  "OcrCode5"; "Text"; "LocCode"; "ActDelDate"; "ExLineNo"; "PQTReqDate"; "PQTReqQty"; "CogsOcrCo2"; "CogsOcrCo3"; "CogsOcrCo4";
  "CogsOcrCo5"; "CSTfIPI"; "CSTfPIS"; "CSTfCOFINS"; "CredOrigin"; "NoInvtryMv"; "AgrNo"; "AgrLnNum"; "ActBaseEnt"; "ActBaseLn";
  "DocEntry"; "Surpluses"; "DefBreak"; "Shortages"; "NeedQty"; "PartRetire"; "RetireQty"; "RetireAPC"; "ThirdParty"; "PoNum";
  "PoItmNum"; "ExpType"; "ExpUUID"; "ExpOpType"; "LicTradNum"; "GrssProfit"; "GrssProfFC"; "GrssProfSC"; "SpecPrice"; "UomEntry";
  "InvQty"; "PrntLnNum"; "Incoterms"; "TransMod"; "NatOfTrans"; "ISDtCryImp"; "ISDtRgnImp"; "ISOrCryExp"; "ISOrRgnExp"; "InvQtyOnly";
  "FreeChrgBP"; "SacEntry"; "HsnEntry"; "GPBefDisc"; "GTotal"; "GTotalFC"; "NCMCode"; "NVECode"; "IndEscala"; "CtrSealQty";
  "CNJPMan"; "CESTCode"; "UFFiscBene"; "RevCharge"; "ShipToCode"; "ShipToDesc"; "OwnerCode"; "ExtTaxRate"; "ExtTaxSum"; "ExtTaxSumF";
  "ExtTaxSumS"; "StdItemId"; "CommClass"; "UnencReasn"; "CUSplit"; "U_ZL_SlpCode"; "U_ZL_SlpName"; "U_ZL_CardCode"; "U_ZL_CardName"; "U_ZL_InvoiceNum";
  "U_ZL_ItemCode"; "U_ZL_ItemName"; "U_BonusItem"; "U_HasAlternativeItem"; "U_PermitNum"; "U_Has_EPoint"; "U_PI_Qty"; "U_PI_Price"; "U_Redemption"; "U_EPoint_Redeemed";
  "U_Rebate_RefNum"; "U_SLS_Remarks1"; "U_SLS_Remarks2"; "U_SLS_Remarks3"; "U_SLS_Remarks4"; "U_SLS_Remarks5"; "U_GSTSGDRate"; "U_GSTSGDAmt"; "U_Related_SO_Number"; "U_Related_SO_LineNum";
  "U_QUT_Calc_BOM_Cost"; "U_RDR_HasSpcTerms"; "U_RDR_SpcPayTerms"; "U_TRF_SerialNum"; "U_ELTO_DefIncInd"; "U_ELTO_ConStrDat"; "U_ELTO_ConEndDat"; "U_ELTO_FreqBill"; "U_ELTO_FreqAdvRev"; "U_ELTO_BillStrDat";
  "U_ELTO_LseQty"; "U_ELTO_CustPO"; "U_ELTO_EstBillAmt"; "U_ELTO_BillId"; "U_ELTO_BillLine"; "U_ELTO_NoCustPOApp"; "U_ELTO_Lease"; "U_ELTO_LseItmCde"; "U_ELTO_LseItmDsc"; "U_ELTO_LseWhs";
  "U_ELTO_LseDlvQty"; "U_ELTO_LseRtnQty"; "U_ELTO_RevSchType"; "U_ELTO_ContractQty"; "U_ELTO_QtyConPrice"; "U_ELTO_Prorata"; "U_ELTO_BillPeriodFr"; "U_ELTO_BillPeriodTo"; "U_ELTO_BaseDocEntry"; "U_ELTO_BaseDocNum";
  "U_ELTO_BaseRow"; "U_FIN_Shown"; "U_PL_CartonNum"; "U_PL_KgCarton"; "U_PL_MYRegNum"; "U_TRF_VIT_Prc"; "U_TRF_SellingPrice"; "U_UnitPriceBP"; "U_POCountry"; "U_Invoice_No";
  "U_Invoice_Item"; "U_Return_Ref_No"; "U_P_Customer_Code"; "U_ZP_Item_Code"; "U_Credit_Reason"; "U_List_Price"; "U_ZP_Customer_Code"; "U_Customer_Name"; "U_ZP_Invoice_Item"; "U_Customer_State";
  "U_Cust_Territory"; "U_TempDivision"; "U_RecLines"; "U_COO"
].

(** ** Validation functions *)

(** Check if date is in YYYYMMDD format *)
Definition validate_date_format (date_val : value) : result bool :=
  if pd_isna date_val then Ok false else
  date_str ← match date_val with
              | VFloat f => PyInt.to_str <$> PyFloat.to_int f
              | _ => Ok (py_str date_val)
              end;
  if negb (String.length date_str =? 8)%nat then Ok false else
  if negb (PyStr.isdigit date_str) then Ok false else
  match PyInt.of_str (PyStr.slice 0 4 date_str),
        PyInt.of_str (PyStr.slice 4 6 date_str),
        PyInt.of_str (PyStr.slice 6 8 date_str) with
  | Ok y, Ok m, Ok d =>
      if (y <? 1900) || (2100 <? y) || (m <? 1) || (12 <? m)
         || (d <? 1) || (31 <? d)
      then Ok false
      else Ok true
  | _, _, _ => Ok false
  end.

(** [pd.isna(v) or str(v).strip() == ''] *)
Definition is_blank (v : value) : bool :=
  pd_isna v || bool_decide (PyStr.strip (py_str v) = "").

(** [f"Row {row_num}: {text}"] *)
Definition Row (row_num : Z) (text : string) : string :=
  "Row " +:+ PyInt.to_str row_num +:+ ": " +:+ text.

(** The body of the loop of [validate_orders], on the loop state
    [(errors, seen_doc_nums)]. *)
Definition validate_orders_body (st : list string * gset string)
    (it : nat * Series) : result (list string * gset string) :=
  let '(errors, seen_doc_nums) := st in
  let '(idx, row) := it in
  let row_num := Z.of_nat idx + 2 in
  if is_blank (get row "Order #" VNone) then Ok st else
  let doc_num := PyStr.strip (py_str (get row "Order #" VNone)) in
  let errors :=
    if bool_decide (doc_num ∈ seen_doc_nums)
    then errors ++ [Row row_num ("Duplicate Order # '" +:+ doc_num +:+ "'")]
    else errors in
  let seen_doc_nums := seen_doc_nums ∪ {[doc_num]} in
  errors ←
    (if is_blank (get row "Document Date" VNone)
     then Ok (errors ++ [Row row_num "Document Date is required"])
     else
       ok ← validate_date_format (get row "Document Date" VNone);
       Ok (if negb ok
           then errors ++ [Row row_num "Document Date must be YYYYMMDD format"]
           else errors));
  errors ←
    (if is_blank (get row "Due Date" VNone)
     then Ok (errors ++ [Row row_num "Due Date is required"])
     else
       ok ← validate_date_format (get row "Due Date" VNone);
       Ok (if negb ok
           then errors ++ [Row row_num "Due Date must be YYYYMMDD format"]
           else errors));
  let errors :=
    if is_blank (get row "Customer Code" VNone)
    then errors ++ [Row row_num "Customer Code is required"]
    else errors in
  let errors :=
    if is_blank (get row "Sales Code" VNone)
    then errors ++ [Row row_num "Sales Code is required"]
    else errors in
  Ok (errors, seen_doc_nums).

(** Validate order headers and return list of errors *)
Definition validate_orders (df_orders : DataFrame) : result (list string) :=
  if empty df_orders
  then Ok ["No orders found in 'Sales Order Entry' sheet"]
  else fst <$> for_each validate_orders_body (iterrows df_orders) ([], ∅).

(** The body of the loop of [validate_lines], on the loop state
    [errors]. *)
Definition validate_lines_body (valid_order_nums : gset string)
    (errors : list string) (it : nat * Series) : result (list string) :=
  let '(idx, row) := it in
  let row_num := Z.of_nat idx + 2 in
  if is_blank (get row "Parent Order #" VNone) then Ok errors else
  let parent_key := PyStr.strip (py_str (get row "Parent Order #" VNone)) in
  let errors :=
    if bool_decide (parent_key ∉ valid_order_nums)
    then errors ++ [Row row_num ("Parent Order # '" +:+ parent_key
                                   +:+ "' not found in Order Headers")]
    else errors in
  let errors :=
    if pd_isna (get row "Line #" VNone)
    then errors ++ [Row row_num "Line # is required"]
    else errors in
  let errors :=
    if is_blank (get row "Item Code" VNone)
    then errors ++ [Row row_num "Item Code is required"]
    else errors in
  errors ←
    (if pd_isna (get row "Quantity" VNone)
     then Ok (errors ++ [Row row_num "Quantity is required"])
     else
       quantity ← py_float (get row "Quantity" (VInt 0));
       Ok (if PyFloat.le_int quantity 0
           then errors ++ [Row row_num "Quantity must be positive"]
           else errors));
  let errors :=
    if is_blank (get row "Warehouse" VNone)
    then errors ++ [Row row_num "Warehouse is required"]
    else errors in
  let errors :=
    if is_blank (get row "Sales Code" VNone)
    then errors ++ [Row row_num "Sales Code is required"]
    else errors in
  let errors :=
    if is_blank (get row "Account Code" VNone)
    then errors ++ [Row row_num "Account Code is required"]
    else errors in
  let errors :=
    if is_blank (get row "VAT Group" VNone)
    then errors ++ [Row row_num "VAT Group is required"]
    else errors in
  Ok errors.

(** Validate line items and return list of errors *)
Definition validate_lines (df_lines : DataFrame)
    (valid_order_nums : gset string) : result (list string) :=
  if empty df_lines
  then Ok ["No line items found in 'Line Items Entry' sheet"]
  else for_each (validate_lines_body valid_order_nums) (iterrows df_lines) [].

(** The validation block of [main]: get the valid order numbers, then
    validate both tables. *)
Definition valid_orders (df_orders : DataFrame) : gset string :=
  foldl (λ valid_orders (it : nat * Series),
           if pd_notna (get it.2 "Order #" VNone)
           then valid_orders ∪ {[PyStr.strip (py_str (get it.2 "Order #" VNone))]}
           else valid_orders)
        ∅ (iterrows df_orders).

Definition main_validation (df_orders df_lines : DataFrame)
    : result (list string) :=
  let valid_orders := valid_orders df_orders in
  order_errors ← validate_orders df_orders;
  line_errors ← validate_lines df_lines valid_orders;
  Ok (order_errors ++ line_errors).

(** ** File generation functions *)

(** Format date value to YYYYMMDD string *)
Definition format_date (val : value) : result string :=
  if pd_isna val then Ok "" else
  match val with
  | VInt n => Ok (PyInt.to_str n)
  | VFloat f => PyInt.to_str <$> PyFloat.to_int f
  | _ => Ok (PyStr.strip (py_str val))
  end.

(** Safely convert value to string *)
Definition safe_str (val : value) : result string :=
  if pd_isna val then Ok "" else
  match val with
  | VFloat f =>
      n ← PyFloat.to_int f;
      if PyFloat.eq_int f n then Ok (PyInt.to_str n) else Ok (py_str val)
  | _ => Ok (PyStr.strip (py_str val))
  end.

(** The field array of one order row: the body of the loop of
    [generate_ordr_file] after the blank-row test. *)
Definition ordr_record (row : Series) : result (list string) :=
  let data := replicate ORDR_TOTAL_COLS "" in
  v ← safe_str (get row "Order #" VNone);
  let data := <[ORDR_FIELDS !!! "DocNum" := v]> data in
  let data := <[ORDR_FIELDS !!! "DocType" := "dDocument_Items"]> data in
  v ← format_date (get row "Document Date" VNone);
  let data := <[ORDR_FIELDS !!! "DocDate" := v]> data in
  v ← format_date (get row "Due Date" VNone);
  let data := <[ORDR_FIELDS !!! "DocDueDate" := v]> data in
  v ← safe_str (get row "Customer Code" VNone);
  let data := <[ORDR_FIELDS !!! "CardCode" := v]> data in
  v ← safe_str (get row "Sales Code" VNone);
  let data := <[ORDR_FIELDS !!! "SalesPersonCode" := v]> data in
  let data := <[ORDR_FIELDS !!! "U_AllowDOInv_Dep" := "Y"]> data in
  v ← safe_str (get row "Branch ID" (VInt 9));
  let data := <[ORDR_FIELDS !!! "U_GSTSGDRate" := v]> data in
  Ok data.

(** Generate ORDR.txt content *)
Definition generate_ordr_file (df_orders : DataFrame) : result string :=
  let lines := [] in
  let lines := lines ++ [PyStr.join PyStr.TAB ORDR_HEADER_ROW1] in
  let lines := lines ++ [PyStr.join PyStr.TAB ORDR_HEADER_ROW2] in
  lines ← for_each
    (λ lines (it : nat * Series),
       if is_blank (get it.2 "Order #" VNone) then Ok lines else
       data ← ordr_record it.2;
       Ok (lines ++ [PyStr.join PyStr.TAB data]))
    (iterrows df_orders) lines;
  Ok (PyStr.join PyStr.CRLF lines +:+ PyStr.CRLF).

(** The field array of one line item row: the body of the loop of
    [generate_rdr1_file] after the blank-row test. *)
Definition rdr1_record (row : Series) : result (list string) :=
  let data := replicate RDR1_TOTAL_COLS "" in
  v ← safe_str (get row "Parent Order #" VNone);
  let data := <[RDR1_FIELDS !!! "ParentKey" := v]> data in
  v ← safe_str (get row "Line #" VNone);
  let data := <[RDR1_FIELDS !!! "LineNum" := v]> data in
  v ← safe_str (get row "Item Code" VNone);
  let data := <[RDR1_FIELDS !!! "ItemCode" := v]> data in
  v ← safe_str (get row "Quantity" VNone);
  let data := <[RDR1_FIELDS !!! "Quantity" := v]> data in
  v ← safe_str (get row "Unit Price" (VStr ""));
  let data := <[RDR1_FIELDS !!! "Price" := v]> data in
  v ← safe_str (get row "Warehouse" VNone);
  let data := <[RDR1_FIELDS !!! "WarehouseCode" := v]> data in
  v ← safe_str (get row "Sales Code" VNone);
  let data := <[RDR1_FIELDS !!! "SalesPersonCode" := v]> data in
  v ← safe_str (get row "Account Code" VNone);
  let data := <[RDR1_FIELDS !!! "AccountCode" := v]> data in
  v ← safe_str (get row "VAT Group" VNone);
  let data := <[RDR1_FIELDS !!! "VatGroup" := v]> data in
  dim1 ← safe_str (get row "Dim 1" (VStr ""));
  dim2 ← safe_str (get row "Dim 2" (VStr ""));
  dim3 ← safe_str (get row "Dim 3" (VStr ""));
  dim4 ← safe_str (get row "Dim 4" (VStr ""));
  dim5 ← safe_str (get row "Dim 5" (VStr ""));
  let data := <[RDR1_FIELDS !!! "CostingCode" := dim1]> data in
  let data := <[RDR1_FIELDS !!! "CostingCode2" := dim2]> data in
  let data := <[RDR1_FIELDS !!! "CostingCode3" := dim3]> data in
  let data := <[RDR1_FIELDS !!! "CostingCode4" := dim4]> data in
  let data := <[RDR1_FIELDS !!! "CostingCode5" := dim5]> data in
  let data := <[RDR1_FIELDS !!! "COGSCostingCode" := dim1]> data in
  let data := <[RDR1_FIELDS !!! "COGSCostingCode2" := dim2]> data in
  let data := <[RDR1_FIELDS !!! "COGSCostingCode3" := dim3]> data in
  let data := <[RDR1_FIELDS !!! "COGSCostingCode4" := dim4]> data in
  let data := <[RDR1_FIELDS !!! "COGSCostingCode5" := dim5]> data in
  v ← safe_str (get row "Permit #" (VStr ""));
  let data := <[RDR1_FIELDS !!! "U_PermitNum" := v]> data in
  v ← safe_str (get row "Branch" (VInt 9));
  let data := <[RDR1_FIELDS !!! "U_GSTSGDRate" := v]> data in
  Ok data.

(** Generate RDR1.txt content *)
Definition generate_rdr1_file (df_lines : DataFrame) : result string :=
  let lines := [] in
  let lines := lines ++ [PyStr.join PyStr.TAB RDR1_HEADER_ROW1] in
  let lines := lines ++ [PyStr.join PyStr.TAB RDR1_HEADER_ROW2] in
  lines ← for_each
    (λ lines (it : nat * Series),
       if is_blank (get it.2 "Parent Order #" VNone) then Ok lines else
       data ← rdr1_record it.2;
       Ok (lines ++ [PyStr.join PyStr.TAB data]))
    (iterrows df_lines) lines;
  Ok (PyStr.join PyStr.CRLF lines +:+ PyStr.CRLF).

(** ** Vocabulary of the properties *)

(** The trimmed key of a row, when the row is not blank. *)
Definition row_key (label : string) (row : Series) : option string :=
  if is_blank (get row label VNone) then None
  else Some (PyStr.strip (py_str (get row label VNone))).

Definition order_key : Series → option string := row_key "Order #".
Definition line_key : Series → option string := row_key "Parent Order #".

(** The trimmed, non-blank order numbers of a table. *)
Definition order_keys (df_orders : DataFrame) : gset string :=
  list_to_set (omap order_key (rows df_orders)).

(** The messages of one non-blank order row after the ["Row n: "] prefix,
    given the order numbers seen before it. *)
Definition order_texts (seen : gset string) (row : Series) : list string :=
  let doc_num := PyStr.strip (py_str (get row "Order #" VNone)) in
  (if bool_decide (doc_num ∈ seen)
   then ["Duplicate Order # '" +:+ doc_num +:+ "'"] else [])
  ++ (if is_blank (get row "Document Date" VNone)
      then ["Document Date is required"]
      else match validate_date_format (get row "Document Date" VNone) with
           | Ok false => ["Document Date must be YYYYMMDD format"]
           | _ => []
           end)
  ++ (if is_blank (get row "Due Date" VNone)
      then ["Due Date is required"]
      else match validate_date_format (get row "Due Date" VNone) with
           | Ok false => ["Due Date must be YYYYMMDD format"]
           | _ => []
           end)
  ++ (if is_blank (get row "Customer Code" VNone)
      then ["Customer Code is required"] else [])
  ++ (if is_blank (get row "Sales Code" VNone)
      then ["Sales Code is required"] else []).

(** The messages of one non-blank line item row after the prefix. *)
Definition line_texts (valid : gset string) (row : Series) : list string :=
  let parent_key := PyStr.strip (py_str (get row "Parent Order #" VNone)) in
  (if bool_decide (parent_key ∉ valid)
   then ["Parent Order # '" +:+ parent_key +:+ "' not found in Order Headers"]
   else [])
  ++ (if pd_isna (get row "Line #" VNone) then ["Line # is required"] else [])
  ++ (if is_blank (get row "Item Code" VNone)
      then ["Item Code is required"] else [])
  ++ (if pd_isna (get row "Quantity" VNone)
      then ["Quantity is required"]
      else match py_float (get row "Quantity" (VInt 0)) with
           | Ok quantity =>
               if PyFloat.le_int quantity 0
               then ["Quantity must be positive"] else []
           | Raise _ => []
           end)
  ++ (if is_blank (get row "Warehouse" VNone)
      then ["Warehouse is required"] else [])
  ++ (if is_blank (get row "Sales Code" VNone)
      then ["Sales Code is required"] else [])
  ++ (if is_blank (get row "Account Code" VNone)
      then ["Account Code is required"] else [])
  ++ (if is_blank (get row "VAT Group" VNone)
      then ["VAT Group is required"] else []).

(** The errors a loop adds for one row. *)
Definition row_errors (label : string) (texts : Series → list string)
    (it : nat * Series) : list string :=
  if is_blank (get it.2 label VNone) then []
  else Row (Z.of_nat it.1 + 2) <$> texts it.2.

(** The order numbers seen once the loop of [validate_orders] has passed
    the given rows. *)
Definition seen_after (seen : gset string) (l : list Series) : gset string :=
  seen ∪ list_to_set (omap order_key l).

(** No cell of the row is an infinite float. *)
Definition finite_cells (row : Series) : Prop :=
  ∀ key neg, row !! key ≠ Some (VFloat (PyFloat.Inf neg)).

Definition finite_value (v : value) : Prop := ∀ neg, v ≠ VFloat (PyFloat.Inf neg).


(** The order record with its six converted fields in place. *)
Definition ordr_data (doc_num doc_date due_date card_code sales_code rate : string)
    : list string :=
  <[202%nat := rate]> (<[198%nat := "Y"]> (<[21%nat := sales_code]>
  (<[7%nat := card_code]> (<[6%nat := due_date]> (<[5%nat := doc_date]>
  (<[2%nat := "dDocument_Items"]> (<[0%nat := doc_num]>
  (replicate 271 "")))))))).


(** The rows a generator emits: those with a non-blank key. *)
Definition emitted (label : string) (df : DataFrame) : list Series :=
  filter (λ row, is_blank (get row label VNone) = false) (rows df).

(** The line record with its converted fields in place. *)
Definition rdr1_data (parent_key line_num item_code quantity price warehouse
    sales_code account_code vat_group dim1 dim2 dim3 dim4 dim5 permit rate
    : string) : list string :=
  <[183%nat := rate]> (<[171%nat := permit]>
  (<[100%nat := dim5]> (<[99%nat := dim4]> (<[98%nat := dim3]>
  (<[97%nat := dim2]> (<[81%nat := dim1]>
  (<[90%nat := dim5]> (<[89%nat := dim4]> (<[88%nat := dim3]>
  (<[87%nat := dim2]> (<[20%nat := dim1]>
  (<[23%nat := vat_group]> (<[17%nat := account_code]>
  (<[14%nat := sales_code]> (<[13%nat := warehouse]> (<[6%nat := price]>
  (<[4%nat := quantity]> (<[2%nat := item_code]> (<[1%nat := line_num]>
  (<[0%nat := parent_key]> (replicate 244 ""))))))))))))))))))))).

(** The characters of [str(n)] are decimal digits and the minus sign. *)
Definition int_char (c : ascii) : Prop :=
  PyStr.isdecimal_char c = true ∨ c = "-"%char.

(** A character of a number's text: a digit, a sign, the point or the
    exponent mark; none of them is white space. *)
Definition number_char (c : ascii) : Prop :=
  PyStr.isdecimal_char c = true ∨ c ∈ ["-"; "+"; "."; "e"]%char.

(** The errors the loop of [validate_orders] adds for a run of rows. *)
Fixpoint orders_errors (seen : gset string) (its : list (nat * Series))
    : list string :=
  match its with
  | [] => []
  | it :: its' =>
      row_errors "Order #" (order_texts seen) it
      ++ orders_errors (seen_after seen [it.2]) its'
  end.

(** The quantity of the row converts: the cell is null or [float] accepts
    it. *)
Definition quantity_converts (row : Series) : Prop :=
  pd_isna (get row "Quantity" VNone) = true
  ∨ ∃ q, py_float (get row "Quantity" (VInt 0)) = Ok q.



(** A character of a float's text that no int's text has. *)
Definition marked (l : list ascii) : Prop := "."%char ∈ l ∨ "e"%char ∈ l.

(** A float cell with an integral value, which [safe_str] writes as an
    int although [str] keeps its [.0]. *)
Definition integral_float (v : value) : Prop :=
  ∃ neg m e, v = VFloat (PyFloat.Fin neg m e) ∧ PyFloat.is_integral m e = true.

(** [df[df[label].notna()].shape[0]], the count [main] shows in the
    preview; [None] stands for the [KeyError] of a missing column. *)
Definition notna_count (label : string) (df : DataFrame) : option nat :=
  if bool_decide (label ∈ columns df)
  then Some (length (filter (λ row, pd_notna (get row label VNone) = true) (rows df)))
  else None.

(** The two header lines alone, as a file. *)
Definition headers_only (row1 row2 : list string) : string :=
  PyStr.join PyStr.CRLF [PyStr.join PyStr.TAB row1; PyStr.join PyStr.TAB row2]
  +:+ PyStr.CRLF.

(** The errors come in row order: each holds a row number, at least
    [low], and a later error never holds a smaller number. *)
Definition row_ordered (low : Z) (errors : list string) : Prop :=
  (∀ e, e ∈ errors → ∃ n t, e = Row n t ∧ low ≤ n)
  ∧ ∀ (a b : nat) n1 t1 n2 t2,
      errors !! a = Some (Row n1 t1) → errors !! b = Some (Row n2 t2) →
      (a ≤ b)%nat → n1 ≤ n2.

(** ** Example tables *)

Definition order_columns : list string :=
  ["Order #"; "Document Date"; "Due Date"; "Customer Code"; "Sales Code"; "Branch ID"].

Definition line_columns : list string :=
  ["Parent Order #"; "Line #"; "Item Code"; "Quantity"; "Unit Price";
   "Warehouse"; "Sales Code"; "Account Code"; "VAT Group";
   "Dim 1"; "Dim 2"; "Dim 3"; "Dim 4"; "Dim 5"; "Permit #"; "Branch"].

(** Two orders with the same number, the second with spaces around it. *)
Definition order_first : list value :=
  [VStr "SO1001"; VStr "20260101"; VStr "20260110"; VStr "C001"; VInt 48; VInt 9].

Definition order_again : list value :=
  [VStr " SO1001 "; VStr "20260102"; VStr "20260111"; VStr "C002"; VInt 48; VInt 9].

Definition orders_example : DataFrame :=
  {| columns := order_columns; values := [order_first; order_again] |}.

(** An order whose Branch ID cell is blank (the float NaN). *)
Definition blank_branch_order : list value :=
  [VStr "SO1001"; VStr "20260101"; VStr "20260110"; VStr "C001"; VInt 48;
   VFloat PyFloat.NaN].



(** A line under order SO1001 with dimension D100. *)
Definition line_ok : list value :=
  [VStr "SO1001"; VInt 1; VStr "ITM1"; VInt 10; VNone; VStr "SG01"; VInt 48;
   VStr "ACC1"; VStr "SR"; VStr "D100"; VNone; VNone; VNone; VNone; VNone; VInt 9].

(** A line under an unknown order, with white space for Line # and Item
    Code. *)
Definition line_dangling : list value :=
  [VStr "SO9"; VStr " "; VStr " "; VInt 10; VNone; VStr "SG01"; VInt 48;
   VStr "ACC1"; VStr "SR"; VNone; VNone; VNone; VNone; VNone; VNone; VInt 9].

(** A line whose quantity is the text [abc]. *)
Definition line_bad_quantity : list value :=
  [VStr "SO1001"; VInt 1; VStr "ITM1"; VStr "abc"; VNone; VStr "SG01"; VInt 48;
   VStr "ACC1"; VStr "SR"; VNone; VNone; VNone; VNone; VNone; VNone; VInt 9].

Definition lines_example : DataFrame :=
  {| columns := line_columns; values := [line_ok; line_dangling] |}.

Definition lines_bad_quantity : DataFrame :=
  {| columns := line_columns; values := [line_ok; line_bad_quantity] |}.

(** A table with rows, all of them blank: a null key and a key of spaces. *)
Definition blank_rows : DataFrame := {|
  columns := ["Order #"; "Parent Order #"; "Customer Code"];
  values := [ [VFloat PyFloat.NaN; VNone; VStr "C001"];
              [VStr "  "; VStr " "; VStr "C002"] ]
|}.


(** An order with a short document date, no due date, spaces for the
    customer code and no sales code, after a correct one. *)
Definition order_faulty : list value :=
  [VStr "SO1002"; VStr "2026011"; VNone; VStr " "; VFloat PyFloat.NaN; VInt 9].

Definition orders_faulty : DataFrame :=
  {| columns := order_columns; values := [order_first; order_faulty] |}.

(** Lines with quantity 0, with the text [-2.5] and without a quantity. *)
Definition line_quantity (quantity : value) : list value :=
  [VStr "SO1001"; VInt 1; VStr "ITM1"; quantity; VNone; VStr "SG01"; VInt 48;
   VStr "ACC1"; VStr "SR"; VNone; VNone; VNone; VNone; VNone; VNone; VInt 9].

Definition lines_quantities : DataFrame := {|
  columns := line_columns;
  values := [line_quantity (VInt 0); line_quantity (VStr "-2.5");
             line_quantity (VFloat PyFloat.NaN); line_quantity (VInt 3)]
|}.

(** Two correct orders, the second keyed by an int, and a line under each. *)
Definition order_second : list value :=
  [VInt 1002; VInt 20260102; VStr "20260111"; VStr "C002"; VInt 48; VInt 9].

Definition orders_clean : DataFrame :=
  {| columns := order_columns; values := [order_first; order_second] |}.

Definition line_second : list value :=
  [VStr " 1002 "; VInt 1; VStr "ITM2"; VStr "2.5"; VNone; VStr "SG01"; VInt 48;
   VStr "ACC1"; VStr "SR"; VNone; VNone; VNone; VNone; VNone; VNone; VInt 9].

Definition lines_clean : DataFrame :=
  {| columns := line_columns; values := [line_ok; line_second] |}.

(** An order table whose numeric Order # column holds a blank, so that
    pandas reads it as floats, and a line keyed by the int. *)
Definition orders_float_keys : DataFrame := {|
  columns := order_columns;
  values := [ [VFloat (PyFloat.Fin false 1001 0); VStr "20260101"; VStr "20260110";
               VStr "C001"; VInt 48; VInt 9];
              [VFloat PyFloat.NaN; VNone; VNone; VNone; VNone; VNone] ]
|}.

Definition lines_int_keys : DataFrame := {|
  columns := line_columns;
  values := [ [VInt 1001; VInt 1; VStr "ITM1"; VInt 10; VNone; VStr "SG01"; VInt 48;
               VStr "ACC1"; VStr "SR"; VNone; VNone; VNone; VNone; VNone; VNone; VInt 9] ]
|}.

(** An order table without the Customer Code column. *)
Definition orders_no_customer : DataFrame := {|
  columns := ["Order #"; "Document Date"; "Due Date"; "Sales Code"];
  values := [ [VStr "SO1001"; VStr "20260101"; VStr "20260110"; VInt 48] ]
|}.


(** * Properties *)

(** * Facts about the string primitives *)

Lemma chars_of_chars l : PyStr.chars (PyStr.of_chars l) = l.
Proof. apply String.list_ascii_of_string_of_list_ascii. Qed.

Lemma of_chars_chars s : PyStr.of_chars (PyStr.chars s) = s.
Proof. apply String.string_of_list_ascii_of_string. Qed.

Lemma chars_app s t : PyStr.chars (s +:+ t) = PyStr.chars s ++ PyStr.chars t.
Proof.
  induction s as [|c s IH]; [done|].
  change (String c s +:+ t) with (String c (s +:+ t)).
  unfold PyStr.chars in *. cbn. by rewrite IH.
Qed.

Lemma chars_inj s t : PyStr.chars s = PyStr.chars t → s = t.
Proof. intros H. by rewrite <- (of_chars_chars s), H, of_chars_chars. Qed.

Lemma drop_while_none p l :
  Forall (λ c, p c = false) l → PyStr.drop_while p l = l.
Proof. destruct 1 as [|c l Hc _]; [done|]. cbn. by rewrite Hc. Qed.

Lemma strip_with_none p l :
  Forall (λ c, p c = false) l → PyStr.strip_with p l = l.
Proof.
  intros H. unfold PyStr.strip_with.
  rewrite (drop_while_none p l H).
  rewrite drop_while_none by by apply Forall_reverse.
  apply reverse_involutive.
Qed.

Lemma strip_none s :
  Forall (λ c, PyStr.isspace c = false) (PyStr.chars s) → PyStr.strip s = s.
Proof.
  intros H. unfold PyStr.strip. rewrite strip_with_none by done.
  apply of_chars_chars.
Qed.


Lemma uint_chars d :
  Forall (λ c, PyStr.isdecimal_char c = true) (PyStr.chars (NilEmpty.string_of_uint d)).
Proof. induction d; cbn; constructor; done. Qed.

Lemma uint_zero_chars d :
  Forall (λ c, PyStr.isdecimal_char c = true) (PyStr.chars (NilZero.string_of_uint d)).
Proof. destruct d; try apply uint_chars. by repeat constructor. Qed.

Lemma to_str_chars n : Forall int_char (PyStr.chars (PyInt.to_str n)).
Proof.
  unfold PyInt.to_str. destruct (Z.to_int n) as [d|d]; cbn.
  - eapply Forall_impl; [apply uint_zero_chars|]. by left.
  - constructor; [by right|].
    eapply Forall_impl; [apply uint_zero_chars|]. by left.
Qed.

Lemma to_int_proper n : Z.to_int n ≠ Pos Nil ∧ Z.to_int n ≠ Neg Nil.
Proof.
  destruct n as [|p|p]; cbn; split; try done;
    intros [=H]; by apply (Unsigned.to_uint_nonnil p).
Qed.

Lemma to_str_inj n1 n2 : PyInt.to_str n1 = PyInt.to_str n2 → n1 = n2.
Proof.
  intros H. unfold PyInt.to_str in H.
  apply DecimalZ.to_int_inj.
  destruct (to_int_proper n1) as [??], (to_int_proper n2) as [??].
  assert (Some (Z.to_int n1) = Some (Z.to_int n2)) as [=]; [|done].
  rewrite <- !NilZero.isi by done. by rewrite H.
Qed.

(** Two texts that start with digits up to a first other character agree
    on the digits and on the rest. *)
Lemma digits_prefix_inj (P : ascii → Prop) l1 l2 c r1 r2 :
  Forall P l1 → Forall P l2 → ¬ P c →
  l1 ++ c :: r1 = l2 ++ c :: r2 → l1 = l2 ∧ r1 = r2.
Proof.
  intros H1. revert l2. induction H1 as [|a l1 Ha _ IH]; intros l2 H2 Hc Heq.
  - destruct H2 as [|b l2 Hb _]; simplify_eq/=; done.
  - destruct H2 as [|b l2 Hb H2]; simplify_eq/=; [done|].
    destruct (IH l2 H2 Hc) as [-> ->]; done.
Qed.

Lemma Row_inj n1 t1 n2 t2 : Row n1 t1 = Row n2 t2 → n1 = n2 ∧ t1 = t2.
Proof.
  unfold Row. intros H. apply String.app_inj in H.
  apply (f_equal PyStr.chars) in H. rewrite !chars_app in H. cbn in H.
  apply (digits_prefix_inj int_char) in H as [H1 H2]; try apply to_str_chars.
  - split; [by apply to_str_inj, chars_inj|]. simplify_eq. by apply chars_inj.
  - intros [?|?]; done.
Qed.

(** * The loops *)

Lemma bind_Ok {A B} (m : result A) (f : A → result B) b :
  m ≫= f = Ok b ↔ ∃ a, m = Ok a ∧ f a = Ok b.
Proof.
  destruct m as [a|e]; cbn; split; try done.
  - intros H. by exists a.
  - by intros (? & [= <-] & ?).
  - by intros (? & ? & ?).
Qed.

Lemma fmap_Ok {A B} (f : A → B) (m : result A) b :
  f <$> m = Ok b ↔ ∃ a, m = Ok a ∧ b = f a.
Proof.
  destruct m as [a|e]; cbn; split; try done.
  - intros [= <-]. by exists a.
  - by intros (? & [= <-] & ->).
  - by intros (? & ? & ?).
Qed.

Lemma iterrows_from {A} (off : nat) (x : A) l :
  imap (λ i r, ((off + i)%nat, r)) (x :: l)
  = (off, x) :: imap (λ i r, ((S off + i)%nat, r)) l.
Proof.
  cbn. rewrite Nat.add_0_r. f_equal. apply imap_ext. intros i y _. cbn.
  f_equal. lia.
Qed.

Lemma elem_of_if_singleton {A} (b : bool) (x y : A) :
  x ∈ (if b then [y] else []) ↔ b = true ∧ x = y.
Proof.
  destruct b; [rewrite list_elem_of_singleton|rewrite elem_of_nil];
    intuition congruence.
Qed.

Lemma if_app {A} (b : bool) (l : list A) x :
  (if b then l ++ [x] else l) = l ++ (if b then [x] else []).
Proof. destruct b; [done|by rewrite app_nil_r]. Qed.

Lemma fmap_if {A B} (f : A → B) (b : bool) x :
  f <$> (if b then [x] else []) = if b then [f x] else [].
Proof. by destruct b. Qed.

Lemma validate_lines_body_spec valid errs it errs' :
  validate_lines_body valid errs it = Ok errs' →
  errs' = errs ++ row_errors "Parent Order #" (line_texts valid) it.
Proof.
  destruct it as [idx row]. unfold validate_lines_body, row_errors, line_texts.
  cbv beta iota zeta. change (idx, row).1 with idx. change (idx, row).2 with row.
  destruct (is_blank (get row "Parent Order #" VNone)).
  { intros [= <-]. by rewrite app_nil_r. }
  destruct (pd_isna (get row "Quantity" VNone)).
  - cbn [mbind result_bind]. intros [= <-].
    rewrite !if_app, !fmap_app, !fmap_if, <- !app_assoc. done.
  - destruct (py_float (get row "Quantity" (VInt 0))) as [q|]; [|done].
    cbn [mbind result_bind]. intros [= <-].
    rewrite !if_app, !fmap_app, !fmap_if, <- !app_assoc. done.
Qed.

Lemma date_step errs n v (req fmt : string) errs' :
  (if is_blank v then Ok (errs ++ [Row n req])
   else ok ← validate_date_format v;
        Ok (if negb ok then errs ++ [Row n fmt] else errs)) = Ok errs' →
  errs' = errs ++ (Row n <$> (if is_blank v then [req]
                              else match validate_date_format v with
                                   | Ok false => [fmt]
                                   | _ => []
                                   end)).
Proof.
  destruct (is_blank v); [by intros [= <-]|].
  destruct (validate_date_format v) as [[]|]; cbn; intros [= <-]; try done.
  by rewrite app_nil_r.
Qed.

Lemma validate_orders_body_spec errs seen it errs' seen' :
  validate_orders_body (errs, seen) it = Ok (errs', seen') →
  errs' = errs ++ row_errors "Order #" (order_texts seen) it
  ∧ seen' = seen_after seen [it.2].
Proof.
  destruct it as [idx row].
  unfold validate_orders_body, row_errors, order_texts, seen_after.
  cbv beta iota zeta. change (idx, row).1 with idx. change (idx, row).2 with row.
  cbn [omap list_omap]. unfold order_key, row_key.
  destruct (is_blank (get row "Order #" VNone)).
  { intros [= <- <-]. rewrite app_nil_r. split; [done|]. cbn. set_solver. }
  intros H. apply bind_Ok in H as (e1 & H1 & H).
  apply bind_Ok in H as (e2 & H2 & H). injection H as <- <-.
  apply date_step in H1 as ->. apply date_step in H2 as ->.
  split.
  - rewrite !if_app, !fmap_app, !fmap_if, <- !app_assoc. done.
  - cbn. set_solver.
Qed.


Lemma validate_orders_loop its errs seen errs' seen' :
  for_each validate_orders_body its (errs, seen) = Ok (errs', seen') →
  errs' = errs ++ orders_errors seen its.
Proof.
  revert errs seen. induction its as [|it its IH]; intros errs seen; cbn.
  { intros [= <- <-]. by rewrite app_nil_r. }
  intros H. apply bind_Ok in H as ([e1 s1] & H1 & H).
  apply validate_orders_body_spec in H1 as [-> ->].
  apply IH in H as ->. by rewrite <- app_assoc.
Qed.

Lemma validate_lines_loop valid its errs errs' :
  for_each (validate_lines_body valid) its errs = Ok errs' →
  errs' = errs ++ (its ≫= row_errors "Parent Order #" (line_texts valid)).
Proof.
  revert errs. induction its as [|it its IH]; intros errs; cbn.
  { intros [= <-]. by rewrite app_nil_r. }
  intros H. apply bind_Ok in H as (e1 & H1 & H).
  apply validate_lines_body_spec in H1 as ->.
  apply IH in H as ->. by rewrite <- app_assoc.
Qed.

Lemma elem_of_row_errors label texts it n t :
  Row n t ∈ row_errors label texts it ↔
  n = Z.of_nat it.1 + 2 ∧ is_blank (get it.2 label VNone) = false ∧ t ∈ texts it.2.
Proof.
  unfold row_errors. destruct (is_blank _).
  - rewrite elem_of_nil. naive_solver.
  - rewrite list_elem_of_fmap. split.
    + intros (t' & [-> ->]%Row_inj & ?). done.
    + intros (-> & _ & ?). by exists t.
Qed.

Lemma seen_after_app seen l1 l2 :
  seen_after (seen_after seen l1) l2 = seen_after seen (l1 ++ l2).
Proof. unfold seen_after. rewrite omap_app, list_to_set_app_L. set_solver. Qed.

Lemma elem_of_orders_errors off seen (l : list Series) (i : nat) t :
  Row (Z.of_nat (off + i) + 2) t
    ∈ orders_errors seen (imap (λ i r, ((off + i)%nat, r)) l) ↔
  ∃ row, l !! i = Some row
         ∧ order_key row ≠ None
         ∧ t ∈ order_texts (seen_after seen (take i l)) row.
Proof.
  revert off seen i. induction l as [|x l IH]; intros off seen i.
  { cbn. rewrite elem_of_nil. naive_solver. }
  rewrite iterrows_from. cbn [orders_errors]. rewrite elem_of_app, elem_of_row_errors.
  cbn [fst snd]. destruct i as [|i].
  - cbn [take lookup list_lookup]. split.
    + intros [(_ & Hb & Ht)|H].
      * exists x. unfold order_key, row_key. rewrite Hb.
        unfold seen_after at 1. cbn. rewrite union_empty_r_L. done.
      * exfalso. clear IH. revert H. generalize (seen_after seen [x]).
        assert (∀ k (l : list Series) g,
          Row (Z.of_nat (off + 0) + 2) t
            ∉ orders_errors g (imap (λ i r, ((S off + k + i)%nat, r)) l)) as Hn.
        { intros k l'. revert k. induction l' as [|y l' IH']; intros k g; cbn.
          - apply not_elem_of_nil.
          - rewrite elem_of_app, elem_of_row_errors. cbn [fst snd].
            intros [[? _]|H]; [lia|].
            eapply (IH' (S k)). erewrite imap_ext; [exact H|].
            intros; cbn; f_equal; lia. }
        intros g H. eapply (Hn 0%nat). erewrite imap_ext; [exact H|].
        intros; cbn; f_equal; lia.
    + intros (row & [= <-] & Hk & Ht). left. split; [lia|]. split.
      * unfold order_key, row_key in Hk. by destruct (is_blank _).
      * revert Ht. unfold seen_after at 1. cbn. by rewrite union_empty_r_L.
  - cbn [take lookup list_lookup].
    replace (off + S i)%nat with (S off + i)%nat by lia.
    rewrite IH, seen_after_app. cbn [app]. split; [|by right].
    intros [[? _]|?]; [lia|done].
Qed.

Lemma app_inj_2 s t1 t2 : t1 +:+ s = t2 +:+ s → t1 = t2.
Proof.
  intros H%(f_equal PyStr.chars). rewrite !chars_app in H.
  by apply app_inv_tail, chars_inj in H.
Qed.

Lemma series_nil cells : series [] cells = ∅.
Proof. done. Qed.

Lemma row_key_empty label : row_key label ∅ = None.
Proof. done. Qed.

Lemma empty_no_keys df label i row :
  empty df = true → rows df !! i = Some row → row_key label row = None.
Proof.
  unfold empty, rows. intros [Hc|Hv]%bool_decide_eq_true.
  - rewrite Hc, list_lookup_fmap. destruct (values df !! i); intros [= <-]. done.
  - by rewrite Hv.
Qed.

Lemma elem_of_lines_errors valid (l : list Series) (i : nat) t :
  Row (Z.of_nat i + 2) t
    ∈ imap (λ idx row, (idx, row)) l ≫= row_errors "Parent Order #" (line_texts valid)
  ↔ ∃ row, l !! i = Some row ∧ line_key row ≠ None ∧ t ∈ line_texts valid row.
Proof.
  rewrite list_elem_of_bind. split.
  - intros ([idx row] & (Hn & Hb & Ht)%elem_of_row_errors & Hin).
    apply elem_of_lookup_imap in Hin as (j & row' & [= -> ->] & Hj).
    cbn in *. assert (i = j) as -> by lia. exists row'.
    unfold line_key, row_key. by rewrite Hb.
  - intros (row & Hi & Hk & Ht). exists (i, row). split.
    + apply elem_of_row_errors. cbn. unfold line_key, row_key in Hk.
      by destruct (is_blank _).
    + apply elem_of_lookup_imap. by exists i, row.
Qed.

(** The errors of [validate_lines] that carry the number of row [i] are
    the messages of that row, and there are none when it is blank. *)
Lemma validate_lines_errors df valid errs (i : nat) t :
  validate_lines df valid = Ok errs →
  Row (Z.of_nat i + 2) t ∈ errs
  ↔ ∃ row, rows df !! i = Some row ∧ line_key row ≠ None
           ∧ t ∈ line_texts valid row.
Proof.
  unfold validate_lines. destruct (empty df) eqn:He.
  - intros [= <-]. rewrite list_elem_of_singleton. split; [done|].
    intros (row & Hi & Hk & _). destruct Hk. by apply (empty_no_keys df _ i row).
  - intros ->%validate_lines_loop. cbn [app]. apply elem_of_lines_errors.
Qed.

(** The same for [validate_orders], given the order numbers of the rows
    before row [i]. *)
Lemma validate_orders_errors df errs (i : nat) t :
  validate_orders df = Ok errs →
  Row (Z.of_nat i + 2) t ∈ errs
  ↔ ∃ row, rows df !! i = Some row ∧ order_key row ≠ None
           ∧ t ∈ order_texts (list_to_set (omap order_key (take i (rows df)))) row.
Proof.
  unfold validate_orders. destruct (empty df) eqn:He.
  - intros [= <-]. rewrite list_elem_of_singleton. split; [done|].
    intros (row & Hi & Hk & _). destruct Hk. by apply (empty_no_keys df _ i row).
  - intros ([e s] & H & ->)%fmap_Ok. apply validate_orders_loop in H as ->.
    cbn [app fst]. unfold iterrows.
    rewrite (elem_of_orders_errors 0 ∅ (rows df) i t).
    unfold seen_after. by rewrite union_empty_l_L.
Qed.

Lemma elem_of_date_texts (x req fmt : string) v :
  x ∈ (if is_blank v then [req]
       else match validate_date_format v with
            | Ok false => [fmt]
            | _ => []
            end) → x = req ∨ x = fmt.
Proof.
  destruct (is_blank v); [|destruct (validate_date_format v) as [[]|]];
    rewrite ?list_elem_of_singleton, ?elem_of_nil; tauto.
Qed.

Lemma elem_of_quantity_texts (x : string) v w :
  x ∈ (if pd_isna v then ["Quantity is required"]
       else match py_float w with
            | Ok quantity =>
                if PyFloat.le_int quantity 0
                then ["Quantity must be positive"] else []
            | Raise _ => []
            end)
  ↔ pd_isna v = true ∧ x = "Quantity is required"
    ∨ pd_isna v = false
      ∧ (∃ q, py_float w = Ok q ∧ PyFloat.le_int q 0 = true)
      ∧ x = "Quantity must be positive".
Proof.
  destruct (pd_isna v); [|destruct (py_float w) as [q|]; [destruct (PyFloat.le_int q 0) eqn:Hq|]];
    rewrite ?list_elem_of_singleton, ?elem_of_nil; split; try naive_solver.
  intros [[? _]|(_ & (q' & [= <-] & ?) & _)]; congruence.
Qed.

Lemma row_key_Some label row k :
  row_key label row = Some k
  ↔ is_blank (get row label VNone) = false
    ∧ k = PyStr.strip (py_str (get row label VNone)).
Proof. unfold row_key. destruct (is_blank _); naive_solver. Qed.

Lemma row_key_not_None label row :
  row_key label row ≠ None ↔ is_blank (get row label VNone) = false.
Proof. unfold row_key. by destruct (is_blank _). Qed.

Lemma is_blank_false v :
  is_blank v = false ↔ pd_isna v = false ∧ PyStr.strip (py_str v) ≠ "".
Proof.
  unfold is_blank. rewrite orb_false_iff, bool_decide_eq_false. done.
Qed.

Lemma duplicate_text seen row k :
  "Duplicate Order # '" +:+ k +:+ "'" ∈ order_texts seen row
  ↔ k = PyStr.strip (py_str (get row "Order #" VNone)) ∧ k ∈ seen.
Proof.
  unfold order_texts. rewrite !elem_of_app, !elem_of_if_singleton. split.
  - intros [[H1 H2]|[H|[H|[[_ H]|[_ H]]]]]; try discriminate H.
    + apply String.app_inj, app_inj_2 in H2 as ->.
      by apply bool_decide_eq_true in H1.
    + apply elem_of_date_texts in H as [H|H]; discriminate H.
    + apply elem_of_date_texts in H as [H|H]; discriminate H.
  - intros [-> H]. left. by rewrite bool_decide_eq_true.
Qed.


Lemma elem_of_line_texts valid row t :
  t ∈ line_texts valid row ↔
    (bool_decide (PyStr.strip (py_str (get row "Parent Order #" VNone)) ∉ valid) = true
     ∧ t = "Parent Order # '" +:+ PyStr.strip (py_str (get row "Parent Order #" VNone))
             +:+ "' not found in Order Headers")
    ∨ (pd_isna (get row "Line #" VNone) = true ∧ t = "Line # is required")
    ∨ (is_blank (get row "Item Code" VNone) = true ∧ t = "Item Code is required")
    ∨ (pd_isna (get row "Quantity" VNone) = true ∧ t = "Quantity is required"
       ∨ pd_isna (get row "Quantity" VNone) = false
         ∧ (∃ q, py_float (get row "Quantity" (VInt 0)) = Ok q
                 ∧ PyFloat.le_int q 0 = true)
         ∧ t = "Quantity must be positive")
    ∨ (is_blank (get row "Warehouse" VNone) = true ∧ t = "Warehouse is required")
    ∨ (is_blank (get row "Sales Code" VNone) = true ∧ t = "Sales Code is required")
    ∨ (is_blank (get row "Account Code" VNone) = true ∧ t = "Account Code is required")
    ∨ (is_blank (get row "VAT Group" VNone) = true ∧ t = "VAT Group is required").
Proof.
  unfold line_texts.
  rewrite !elem_of_app, !elem_of_if_singleton, elem_of_quantity_texts. done.
Qed.

Ltac line_text_cases H :=
  apply elem_of_line_texts in H
    as [[_ H]|[[? H]|[[? H]|[[[? H]|(? & ? & H)]|[[? H]|[[? H]|[[? H]|[? H]]]]]]]];
  try discriminate H.

(** Which of the fixed messages a line item row gets. *)
Lemma required_texts valid row :
  ("Line # is required" ∈ line_texts valid row
     ↔ pd_isna (get row "Line #" VNone) = true)
  ∧ ("Item Code is required" ∈ line_texts valid row
     ↔ is_blank (get row "Item Code" VNone) = true)
  ∧ ("Warehouse is required" ∈ line_texts valid row
     ↔ is_blank (get row "Warehouse" VNone) = true)
  ∧ ("Sales Code is required" ∈ line_texts valid row
     ↔ is_blank (get row "Sales Code" VNone) = true)
  ∧ ("Account Code is required" ∈ line_texts valid row
     ↔ is_blank (get row "Account Code" VNone) = true)
  ∧ ("VAT Group is required" ∈ line_texts valid row
     ↔ is_blank (get row "VAT Group" VNone) = true)
  ∧ ("Quantity is required" ∈ line_texts valid row
     ↔ pd_isna (get row "Quantity" VNone) = true)
  ∧ ("Quantity must be positive" ∈ line_texts valid row
     ↔ pd_isna (get row "Quantity" VNone) = false
       ∧ ∃ q, py_float (get row "Quantity" (VInt 0)) = Ok q
              ∧ PyFloat.le_int q 0 = true).
Proof.
  repeat apply conj; try (intros H; line_text_cases H; done);
    intros H; apply elem_of_line_texts; tauto.
Qed.

Lemma elem_of_order_keys_of (l : list Series) k :
  k ∈ (list_to_set (omap order_key l) : gset string)
  ↔ ∃ j row, l !! j = Some row ∧ order_key row = Some k.
Proof.
  rewrite elem_of_list_to_set, list_elem_of_omap. split.
  - intros (row & (j & Hj)%list_elem_of_lookup & Hk). by exists j, row.
  - intros (j & row & Hj & Hk). exists row. split; [|done].
    apply list_elem_of_lookup. by exists j.
Qed.

(** C2. For every non-blank order row, [validate_orders] reports the
    duplicate-key error of that row exactly when the same trimmed order
    number is the key of a non-blank row at an earlier index; so the first
    occurrence of a value is never flagged. *)
Theorem duplicate_order_numbers df_orders errors (i : nat) row doc_num :
  validate_orders df_orders = Ok errors →
  rows df_orders !! i = Some row →
  order_key row = Some doc_num →
  (Row (Z.of_nat i + 2) ("Duplicate Order # '" +:+ doc_num +:+ "'") ∈ errors
   ↔ ∃ (j : nat) earlier, (j < i)%nat ∧ rows df_orders !! j = Some earlier
                          ∧ order_key earlier = Some doc_num)
  ∧ ((∀ (j : nat) earlier, (j < i)%nat → rows df_orders !! j = Some earlier →
        order_key earlier ≠ Some doc_num) →
     ∀ k, Row (Z.of_nat i + 2) ("Duplicate Order # '" +:+ k +:+ "'") ∉ errors).
Proof.
  intros Hv Hi Hk.
  assert (∀ k, Row (Z.of_nat i + 2) ("Duplicate Order # '" +:+ k +:+ "'") ∈ errors
    ↔ k = doc_num ∧ ∃ (j : nat) earlier, (j < i)%nat ∧ rows df_orders !! j = Some earlier
                          ∧ order_key earlier = Some k) as Hdup.
  { intros k. rewrite (validate_orders_errors _ _ _ _ Hv).
    apply row_key_Some in Hk as [Hb ->]. split.
    - intros (row' & Hi' & _ & [-> Hs]%duplicate_text). simplify_eq.
      split; [done|]. apply elem_of_order_keys_of in Hs as (j & earlier & Hj & He).
      apply lookup_take_Some in Hj as [Hj ?]. by exists j, earlier.
    - intros (-> & j & earlier & Hlt & Hj & He). exists row.
      split; [done|]. split; [by apply row_key_not_None|].
      apply duplicate_text. split; [done|].
      apply elem_of_order_keys_of. exists j, earlier. split; [|done].
      by rewrite lookup_take_lt. }
  split.
  - rewrite Hdup. naive_solver.
  - intros Hfirst k [-> (j & earlier & ? & ? & ?)]%Hdup. by eapply Hfirst.
Qed.

Lemma elem_of_valid_orders df k :
  k ∈ valid_orders df
  ↔ ∃ row, row ∈ rows df ∧ pd_isna (get row "Order #" VNone) = false
           ∧ k = PyStr.strip (py_str (get row "Order #" VNone)).
Proof.
  unfold valid_orders, iterrows.
  assert (∀ (its : list (nat * Series)) (acc : gset string),
    k ∈ foldl (λ valid_orders (it : nat * Series),
           if pd_notna (get it.2 "Order #" VNone)
           then valid_orders ∪ {[PyStr.strip (py_str (get it.2 "Order #" VNone))]}
           else valid_orders) acc its
    ↔ k ∈ acc ∨ ∃ it, it ∈ its ∧ pd_isna (get it.2 "Order #" VNone) = false
           ∧ k = PyStr.strip (py_str (get it.2 "Order #" VNone))) as Hfold.
  { induction its as [|it its IH]; intros acc; cbn [foldl].
    - setoid_rewrite elem_of_nil. naive_solver.
    - rewrite IH. setoid_rewrite elem_of_cons. unfold pd_notna.
      destruct (pd_isna (get it.2 "Order #" VNone)) eqn:Hna; cbn [negb].
      + split; [naive_solver|]. intros [?|(it' & [ -> |?] & ? & ?)]; [by left|congruence|].
        right. by exists it'.
      + rewrite elem_of_union, elem_of_singleton. split.
        * intros [[?| ->]|(it' & ? & ? & ?)]; [by left| |].
          -- right. exists it. auto.
          -- right. exists it'. auto.
        * intros [?|(it' & [ -> |?] & ? & ?)]; [by left;left|by left; right|].
          right. by exists it'. }
  rewrite Hfold, elem_of_empty. split.
  - intros [[]|([idx row] & (j & row' & [= -> ->] & Hj)%elem_of_lookup_imap & ? & ?)].
    exists row'. split; [|done]. apply list_elem_of_lookup. by exists j.
  - intros (row & (j & Hj)%list_elem_of_lookup & ? & ?). right. exists (j, row).
    split; [|done]. apply elem_of_lookup_imap. by exists j, row.
Qed.

(** A non-empty key is among the valid order numbers of [main] exactly
    when it is the key of a non-blank order row. *)
Lemma valid_orders_order_keys df k :
  k ≠ "" → k ∈ valid_orders df ↔ k ∈ order_keys df.
Proof.
  intros Hk. rewrite elem_of_valid_orders. unfold order_keys.
  rewrite elem_of_list_to_set, list_elem_of_omap.
  split; intros (row & Hin & H); exists row; (split; [done|]).
  - destruct H as [Hna ->]. apply row_key_Some. split; [|done].
    by apply is_blank_false.
  - apply row_key_Some in H as [[??]%is_blank_false ->]. done.
Qed.


(** C10. In [validate_lines] the presence check of Line # is a null check
    only: a non-blank row gets "Line # is required" exactly when the cell is
    null, so not for a white-space-only string, whereas Item Code,
    Warehouse, Sales Code, Account Code and VAT Group are reported as soon
    as the cell is null or trims to the empty string. *)
Theorem line_number_null_check_only df_lines valid errors (i : nat) row :
  validate_lines df_lines valid = Ok errors →
  rows df_lines !! i = Some row →
  line_key row ≠ None →
  (Row (Z.of_nat i + 2) "Line # is required" ∈ errors
     ↔ pd_isna (get row "Line #" VNone) = true)
  ∧ (∀ s, PyStr.strip s = "" → row !! "Line #" = Some (VStr s) →
       Row (Z.of_nat i + 2) "Line # is required" ∉ errors)
  ∧ (∀ label, label ∈ ["Item Code"; "Warehouse"; "Sales Code"; "Account Code"; "VAT Group"] →
       (Row (Z.of_nat i + 2) (label +:+ " is required") ∈ errors
          ↔ is_blank (get row label VNone) = true)
       ∧ (∀ s, PyStr.strip s = "" → row !! label = Some (VStr s) →
            Row (Z.of_nat i + 2) (label +:+ " is required") ∈ errors)).
Proof.
  intros Hv Hi Hk.
  assert (∀ t, Row (Z.of_nat i + 2) t ∈ errors ↔ t ∈ line_texts valid row) as Hrow.
  { intros t. rewrite (validate_lines_errors _ _ _ _ _ Hv). split.
    - intros (row' & ? & _ & ?). by simplify_eq.
    - intros ?. by exists row. }
  destruct (required_texts valid row) as (Hl & Hi1 & Hw & Hs & Ha & Hg & _).
  split; [by rewrite Hrow|]. split.
  - intros s _ Hs'. rewrite Hrow, Hl. unfold get. by rewrite Hs'.
  - intros label Hlabel.
    assert (label +:+ " is required" ∈ line_texts valid row
            ↔ is_blank (get row label VNone) = true) as Hreq.
    { rewrite !elem_of_cons, elem_of_nil in Hlabel.
      destruct Hlabel as [->|[->|[->|[->|[->|[]]]]]]; done. }
    split; [by rewrite Hrow|].
    intros s Hs' Hcell. rewrite Hrow, Hreq. unfold get. rewrite Hcell.
    unfold is_blank, pd_isna, py_str. by rewrite Hs'.
Qed.

(** * Dates *)

Lemma decimal_code c :
  PyStr.isdecimal_char c = true ↔ (48 ≤ PyStr.code c ≤ 57)%N.
Proof.
  unfold PyStr.isdecimal_char, PyStr.digit_val. rewrite bool_decide_eq_true.
  destruct (_ && _) eqn:H.
  - apply andb_true_iff in H as [?%N.leb_le ?%N.leb_le]. split; [done|by eexists].
  - apply andb_false_iff in H as [?%N.leb_gt|?%N.leb_gt];
      (split; [by intros [? [=]]|lia]).
Qed.

Lemma decimal_not_space c :
  PyStr.isdecimal_char c = true → PyStr.isspace_num c = false ∧ PyStr.isspace c = false.
Proof.
  intros ?%decimal_code. unfold PyStr.isspace_num, PyStr.isspace.
  repeat match goal with
  | |- context [(?a <=? ?b)%N] => destruct (N.leb_spec a b)
  | |- context [(?a =? ?b)%N] => destruct (N.eqb_spec a b)
  end; try done; lia.
Qed.

Lemma decimal_isdigit c : PyStr.isdecimal_char c = true → PyStr.isdigit_char c = true.
Proof.
  intros [?%N.leb_le ?%N.leb_le]%decimal_code. unfold PyStr.isdigit_char.
  by repeat (apply orb_true_iff; left); apply andb_true_iff.
Qed.

Lemma decimal_not_char c (x : ascii) :
  PyStr.isdecimal_char c = true → PyStr.isdecimal_char x = false → c ≠ x.
Proof. intros ?? ->. congruence. Qed.

Lemma underscores_ok_digits b l :
  Forall (λ c, PyStr.isdecimal_char c = true) l → PyInt.underscores_ok b l = true.
Proof.
  intros H. revert b. induction H as [|c l Hc _ IH]; intros b; [done|]. cbn.
  rewrite bool_decide_eq_false_2 by by apply decimal_not_char. apply IH.
Qed.

Lemma remove_underscores_digits l :
  Forall (λ c, PyStr.isdecimal_char c = true) l → PyInt.remove_underscores l = l.
Proof.
  unfold PyInt.remove_underscores.
  induction 1 as [|c l Hc _ IH]; [done|].
  rewrite filter_cons_True by by apply decimal_not_char. by rewrite IH.
Qed.

Lemma digits_val_digits acc l :
  Forall (λ c, PyStr.isdecimal_char c = true) l → is_Some (PyInt.digits_val acc l).
Proof.
  intros H. revert acc. induction H as [|c l Hc _ IH]; intros acc; [by eexists|].
  cbn. unfold PyStr.isdecimal_char in Hc. apply bool_decide_eq_true in Hc as [d ->].
  apply IH.
Qed.

(** [int(s)] on a non-empty run of decimal digits is its value. *)
Lemma of_str_digits l n :
  l ≠ [] → Forall (λ c, PyStr.isdecimal_char c = true) l →
  PyInt.digits_val 0 l = Some n →
  PyInt.of_str (PyStr.of_chars l) = Ok n.
Proof.
  intros Hne Hl Hn. unfold PyInt.of_str. rewrite chars_of_chars.
  rewrite strip_with_none
    by (eapply Forall_impl; [done|]; by intros c [? _]%decimal_not_space).
  rewrite underscores_ok_digits, remove_underscores_digits by done. cbn [negb].
  destruct l as [|c l]; [done|]. apply Forall_cons in Hl as [Hc Hl].
  unfold PyInt.split_sign.
  rewrite !bool_decide_eq_false_2 by by apply decimal_not_char.
  by rewrite Hn.
Qed.

Lemma string_length_8 s :
  String.length s = 8%nat →
  ∃ c1 c2 c3 c4 c5 c6 c7 c8, s = PyStr.of_chars [c1; c2; c3; c4; c5; c6; c7; c8].
Proof.
  intros H. do 8 (destruct s as [|? s]; [done|]). destruct s; [|done].
  by repeat eexists.
Qed.

(** An eight-digit text with a plausible year, month and day is accepted,
    whatever the month's length. *)
Lemma validate_date_format_digits s y m d :
  String.length s = 8%nat →
  Forall (λ c, PyStr.isdecimal_char c = true) (PyStr.chars s) →
  PyInt.digits_val 0 (PyStr.chars (PyStr.slice 0 4 s)) = Some y →
  PyInt.digits_val 0 (PyStr.chars (PyStr.slice 4 6 s)) = Some m →
  PyInt.digits_val 0 (PyStr.chars (PyStr.slice 6 8 s)) = Some d →
  1900 ≤ y ≤ 2100 → 1 ≤ m ≤ 12 → 1 ≤ d ≤ 31 →
  validate_date_format (VStr s) = Ok true.
Proof.
  intros (c1&c2&c3&c4&c5&c6&c7&c8&->)%string_length_8 Hdec Hy Hm Hd ???.
  rewrite chars_of_chars in Hdec.
  unfold validate_date_format. cbn [pd_isna py_str mbind result_bind].
  change (String.length _ =? 8)%nat with true. cbn [negb].
  unfold PyStr.isdigit. rewrite chars_of_chars.
  replace (forallb _ _) with true; cycle 1.
  { symmetry. apply Is_true_true, forallb_True. eapply Forall_impl; [done|].
    intros c Hc. by apply Is_true_true, decimal_isdigit. }
  cbn [negb].
  change (PyStr.slice 0 4 _) with (PyStr.of_chars [c1; c2; c3; c4]) in *.
  change (PyStr.slice 4 6 _) with (PyStr.of_chars [c5; c6]) in *.
  change (PyStr.slice 6 8 _) with (PyStr.of_chars [c7; c8]) in *.
  rewrite chars_of_chars in Hy, Hm, Hd.
  repeat match goal with H : Forall _ (_ :: _) |- _ => apply Forall_cons in H as [??] end.
  rewrite (of_str_digits _ y), (of_str_digits _ m), (of_str_digits _ d)
    by (done || by repeat constructor).
  repeat match goal with
  | |- context [(?a <? ?b)] => destruct (Z.ltb_spec a b); try lia
  end. done.
Qed.

(** C6. [validate_date_format] accepts "20260115" and every eight-digit
    text whose year is in 1900..2100, month in 1..12 and day in 1..31, so
    also "20260231"; it rejects "2026115", "20261301", "abcd0115", a null
    value and the empty text. *)
Theorem validate_date_format_examples :
  validate_date_format (VStr "20260115") = Ok true
  ∧ (∀ s y m d,
       String.length s = 8%nat →
       Forall (λ c, PyStr.isdecimal_char c = true) (PyStr.chars s) →
       PyInt.digits_val 0 (PyStr.chars (PyStr.slice 0 4 s)) = Some y →
       PyInt.digits_val 0 (PyStr.chars (PyStr.slice 4 6 s)) = Some m →
       PyInt.digits_val 0 (PyStr.chars (PyStr.slice 6 8 s)) = Some d →
       1900 ≤ y ≤ 2100 → 1 ≤ m ≤ 12 → 1 ≤ d ≤ 31 →
       validate_date_format (VStr s) = Ok true)
  ∧ validate_date_format (VStr "20260231") = Ok true
  ∧ validate_date_format (VStr "2026115") = Ok false
  ∧ validate_date_format (VStr "20261301") = Ok false
  ∧ validate_date_format (VStr "abcd0115") = Ok false
  ∧ validate_date_format VNone = Ok false
  ∧ validate_date_format (VFloat PyFloat.NaN) = Ok false
  ∧ validate_date_format (VStr "") = Ok false.
Proof.
  split; [by vm_compute|]. split; [exact validate_date_format_digits|].
  repeat split; by vm_compute.
Qed.

(** C6, witness: the first and the last accepted day. *)
Lemma validate_date_format_examples_witness :
  validate_date_format (VStr "19000101") = Ok true
  ∧ validate_date_format (VStr "21001231") = Ok true.
Proof.
  split.
  - apply (proj1 (proj2 validate_date_format_examples) "19000101" 1900 1 1);
      first [ by vm_compute | lia | by repeat constructor ].
  - apply (proj1 (proj2 validate_date_format_examples) "21001231" 2100 12 31);
      first [ by vm_compute | lia | by repeat constructor ].
Defined.

(** * Texts of numbers *)


Lemma number_char_not_space c : number_char c → PyStr.isspace c = false.
Proof.
  intros [H|H]; [by apply decimal_not_space|].
  rewrite !elem_of_cons, elem_of_nil in H.
  destruct H as [->|[->|[->|[->|[]]]]]; done.
Qed.

Lemma int_char_number c : int_char c → number_char c.
Proof. intros [?| ->]; [by left|right]. set_solver. Qed.

Lemma Forall_drop_while (P : ascii → Prop) p l :
  Forall P l → Forall P (PyStr.drop_while p l).
Proof. induction 1 as [|c l ?? IH]; cbn; [done|]. destruct (p c); auto. Qed.

Lemma to_str_number n : Forall number_char (PyStr.chars (PyInt.to_str n)).
Proof. eapply Forall_impl; [apply to_str_chars|]. apply int_char_number. Qed.

Lemma number_char_lit (c : ascii) :
  (PyStr.isdecimal_char c || bool_decide (c ∈ ["-"; "+"; "."; "e"]%char)) = true →
  number_char c.
Proof. intros [?|?%bool_decide_eq_true]%orb_true_iff; [by left|by right]. Qed.

Lemma format_number sig decpt :
  Forall number_char sig → Forall number_char (PyFloat.format sig decpt).
Proof.
  intros Hsig. unfold PyFloat.format.
  assert (∀ n, Forall number_char (PyFloat.zeros n)) as Hz.
  { intros n. apply Forall_replicate. by apply number_char_lit. }
  repeat case_match; subst;
    repeat match goal with
    | H : Forall _ (_ :: _) |- _ => apply Forall_cons in H as [??]
    end;
    repeat first
      [ apply Forall_app; split
      | apply Forall_cons; split
      | by apply Forall_nil
      | apply Forall_take | apply Forall_drop
      | apply to_str_number
      | apply Hz
      | done
      | by apply number_char_lit
      | done ].
Qed.

Lemma repr_finite_number m e : Forall number_char (PyFloat.repr_finite m e).
Proof.
  unfold PyFloat.repr_finite. destruct m as [|p].
  { cbn. repeat (apply Forall_cons; split; [by apply number_char_lit|]).
    by apply Forall_nil. }
  destruct (PyFloat.normalize _ _) as [M E].
  destruct (PyFloat.shortest _ _ _ _ _) as [c q].
  apply format_number. unfold PyFloat.strip_trailing_zeros.
  apply Forall_reverse, Forall_drop_while, Forall_reverse, to_str_number.
Qed.

(** [str(f)] of a finite float has no white space, so [strip] leaves it
    unchanged. *)
Lemma strip_float_text neg m e :
  PyStr.strip (PyFloat.to_str (PyFloat.Fin neg m e)) = PyFloat.to_str (PyFloat.Fin neg m e).
Proof.
  apply strip_none. unfold PyFloat.to_str. rewrite chars_of_chars.
  apply (Forall_impl number_char); [|apply number_char_not_space].
  apply Forall_app. split; [|apply repr_finite_number].
  destruct neg; [apply Forall_singleton; by apply number_char_lit|by apply Forall_nil].
Qed.

Lemma strip_int_text n : PyStr.strip (PyInt.to_str n) = PyInt.to_str n.
Proof.
  apply strip_none. eapply Forall_impl; [apply to_str_number|].
  apply number_char_not_space.
Qed.


(** * Records *)

Lemma ordr_record_inv row data :
  ordr_record row = Ok data →
  ∃ a b c d e f,
    safe_str (get row "Order #" VNone) = Ok a
    ∧ format_date (get row "Document Date" VNone) = Ok b
    ∧ format_date (get row "Due Date" VNone) = Ok c
    ∧ safe_str (get row "Customer Code" VNone) = Ok d
    ∧ safe_str (get row "Sales Code" VNone) = Ok e
    ∧ safe_str (get row "Branch ID" (VInt 9)) = Ok f
    ∧ data = ordr_data a b c d e f.
Proof.
  unfold ordr_record.
  destruct (safe_str (get row "Order #" VNone)) as [a|]; [|done].
  destruct (format_date (get row "Document Date" VNone)) as [b|]; [|done].
  destruct (format_date (get row "Due Date" VNone)) as [c|]; [|done].
  destruct (safe_str (get row "Customer Code" VNone)) as [d|]; [|done].
  destruct (safe_str (get row "Sales Code" VNone)) as [e|]; [|done].
  destruct (safe_str (get row "Branch ID" (VInt 9))) as [f|]; [|done].
  cbn [mbind result_bind]. intros [= <-]. exists a, b, c, d, e, f.
  repeat split.
Qed.

Lemma rdr1_record_inv row data :
  rdr1_record row = Ok data →
  ∃ x1 x2 x3 x4 x5 x6 x7 x8 x9 x10 x11 x12 x13 x14 x15 x16,
    safe_str (get row "Parent Order #" VNone) = Ok x1
    ∧ safe_str (get row "Line #" VNone) = Ok x2
    ∧ safe_str (get row "Item Code" VNone) = Ok x3
    ∧ safe_str (get row "Quantity" VNone) = Ok x4
    ∧ safe_str (get row "Unit Price" (VStr "")) = Ok x5
    ∧ safe_str (get row "Warehouse" VNone) = Ok x6
    ∧ safe_str (get row "Sales Code" VNone) = Ok x7
    ∧ safe_str (get row "Account Code" VNone) = Ok x8
    ∧ safe_str (get row "VAT Group" VNone) = Ok x9
    ∧ safe_str (get row "Dim 1" (VStr "")) = Ok x10
    ∧ safe_str (get row "Dim 2" (VStr "")) = Ok x11
    ∧ safe_str (get row "Dim 3" (VStr "")) = Ok x12
    ∧ safe_str (get row "Dim 4" (VStr "")) = Ok x13
    ∧ safe_str (get row "Dim 5" (VStr "")) = Ok x14
    ∧ safe_str (get row "Permit #" (VStr "")) = Ok x15
    ∧ safe_str (get row "Branch" (VInt 9)) = Ok x16
    ∧ data = rdr1_data x1 x2 x3 x4 x5 x6 x7 x8 x9 x10 x11 x12 x13 x14 x15 x16.
Proof.
  unfold rdr1_record.
  destruct (safe_str (get row "Parent Order #" VNone)) as [x1|]; [|done].
  destruct (safe_str (get row "Line #" VNone)) as [x2|]; [|done].
  destruct (safe_str (get row "Item Code" VNone)) as [x3|]; [|done].
  destruct (safe_str (get row "Quantity" VNone)) as [x4|]; [|done].
  destruct (safe_str (get row "Unit Price" (VStr ""))) as [x5|]; [|done].
  destruct (safe_str (get row "Warehouse" VNone)) as [x6|]; [|done].
  destruct (safe_str (get row "Sales Code" VNone)) as [x7|]; [|done].
  destruct (safe_str (get row "Account Code" VNone)) as [x8|]; [|done].
  destruct (safe_str (get row "VAT Group" VNone)) as [x9|]; [|done].
  destruct (safe_str (get row "Dim 1" (VStr ""))) as [x10|]; [|done].
  destruct (safe_str (get row "Dim 2" (VStr ""))) as [x11|]; [|done].
  destruct (safe_str (get row "Dim 3" (VStr ""))) as [x12|]; [|done].
  destruct (safe_str (get row "Dim 4" (VStr ""))) as [x13|]; [|done].
  destruct (safe_str (get row "Dim 5" (VStr ""))) as [x14|]; [|done].
  destruct (safe_str (get row "Permit #" (VStr ""))) as [x15|]; [|done].
  destruct (safe_str (get row "Branch" (VInt 9))) as [x16|]; [|done].
  cbn [mbind result_bind]. intros H.
  apply (f_equal (λ r, match r with Ok x => x | Raise _ => data end)) in H.
  cbv beta iota in H. subst data. exists x1, x2, x3, x4, x5, x6, x7, x8, x9, x10, x11, x12, x13, x14, x15, x16.
  do 16 (split; [reflexivity|]). vm_compute. reflexivity.
Qed.

(** * Generated files *)




Lemma iterrows_rows df : (iterrows df).*2 = rows df.
Proof.
  unfold iterrows. apply list_eq. intros i.
  rewrite list_lookup_fmap, list_lookup_imap. by destruct (rows df !! i).
Qed.


(** * When generation returns *)




Lemma get_finite row key default :
  finite_cells row → finite_value default → finite_value (get row key default).
Proof.
  intros Hrow Hd neg. unfold get. destruct (row !! key) as [v|] eqn:Hv; [|apply Hd].
  intros ->. by apply (Hrow key neg).
Qed.











(** * Constant fields, the branch default and the mirrored dimensions *)

Lemma get_Some row key default v : row !! key = Some v → get row key default = v.
Proof. unfold get. by intros ->. Qed.

Lemma get_None row key default : row !! key = None → get row key default = default.
Proof. unfold get. by intros ->. Qed.

Lemma safe_str_null v : pd_isna v = true → safe_str v = Ok "".
Proof. unfold safe_str. by intros ->. Qed.

(** C7 (amended). Every generated order record holds "dDocument_Items" at
    the DocType position and "Y" at the deposit-allowance position, and its
    rate position holds the converted Branch ID cell: "9" when the row has
    no Branch ID column, and the empty text, not "9", when the cell is
    there but null.  The same holds for the Branch column and the rate
    position of a line record. *)
Theorem constants_and_branch_default :
  (∀ row data, ordr_record row = Ok data →
     ORDR_FIELDS !! "DocType" = Some 2%nat
     ∧ data !! 2%nat = Some "dDocument_Items"
     ∧ ORDR_FIELDS !! "U_AllowDOInv_Dep" = Some 198%nat
     ∧ data !! 198%nat = Some "Y"
     ∧ ORDR_FIELDS !! "U_GSTSGDRate" = Some 202%nat
     ∧ safe_str (get row "Branch ID" (VInt 9)) = Ok (data !!! 202%nat)
     ∧ (row !! "Branch ID" = None → data !! 202%nat = Some "9")
     ∧ (∀ v, row !! "Branch ID" = Some v → pd_isna v = true →
          data !! 202%nat = Some ""))
  ∧ (∀ row data, rdr1_record row = Ok data →
       RDR1_FIELDS !! "U_GSTSGDRate" = Some 183%nat
       ∧ safe_str (get row "Branch" (VInt 9)) = Ok (data !!! 183%nat)
       ∧ (row !! "Branch" = None → data !! 183%nat = Some "9")
       ∧ (∀ v, row !! "Branch" = Some v → pd_isna v = true →
            data !! 183%nat = Some "")).
Proof.
  split.
  - intros row data (a & b & c & d & e & f & _ & _ & _ & _ & _ & Hf & ->)%ordr_record_inv.
    change (ordr_data a b c d e f !! 2%nat) with (Some "dDocument_Items").
    change (ordr_data a b c d e f !! 198%nat) with (Some "Y").
    change (ordr_data a b c d e f !! 202%nat) with (Some f).
    change (ordr_data a b c d e f !!! 202%nat) with f.
    repeat split; try done.
    + intros Hn. rewrite (get_None _ _ _ Hn) in Hf. by injection Hf as <-.
    + intros v Hv Hna. rewrite (get_Some _ _ _ _ Hv), safe_str_null in Hf by done.
      by injection Hf as <-.
  - intros row data H. apply rdr1_record_inv in H
      as (x1&x2&x3&x4&x5&x6&x7&x8&x9&x10&x11&x12&x13&x14&x15&x16&H).
    destruct H as (_&_&_&_&_&_&_&_&_&_&_&_&_&_&_&Hf&->).
    change (rdr1_data x1 x2 x3 x4 x5 x6 x7 x8 x9 x10 x11 x12 x13 x14 x15 x16 !! 183%nat)
      with (Some x16).
    change (rdr1_data x1 x2 x3 x4 x5 x6 x7 x8 x9 x10 x11 x12 x13 x14 x15 x16 !!! 183%nat)
      with x16.
    repeat split; try done.
    + intros Hn. rewrite (get_None _ _ _ Hn) in Hf. by injection Hf as <-.
    + intros v Hv Hna. rewrite (get_Some _ _ _ _ Hv), safe_str_null in Hf by done.
      by injection Hf as <-.
Qed.

(** C7, witness: a row with Branch ID 7, and rows without the branch
    column. *)
Lemma constants_and_branch_default_witness :
  (∃ data, ordr_record (series order_columns
             [VStr "SO1001"; VStr "20260101"; VStr "20260110"; VStr "C001"; VInt 48; VInt 7])
           = Ok data ∧ data !! 2%nat = Some "dDocument_Items"
           ∧ data !! 198%nat = Some "Y" ∧ data !!! 202%nat = "7")
  ∧ (∃ data, ordr_record (series ["Order #"] [VStr "SO1001"]) = Ok data
             ∧ data !! 202%nat = Some "9")
  ∧ (∃ data, rdr1_record (series ["Parent Order #"] [VStr "SO1001"]) = Ok data
             ∧ data !! 183%nat = Some "9").
Proof.
  split; [|split].
  - eexists (ordr_data "SO1001" "20260101" "20260110" "C001" "48" "7").
    assert (ordr_record (series order_columns
             [VStr "SO1001"; VStr "20260101"; VStr "20260110"; VStr "C001"; VInt 48; VInt 7])
            = Ok (ordr_data "SO1001" "20260101" "20260110" "C001" "48" "7")) as H
      by (vm_compute; reflexivity).
    split; [exact H|].
    destruct (proj1 constants_and_branch_default _ _ H) as (_ & H2 & _ & H198 & _ & H202 & _).
    split; [exact H2|]. split; [exact H198|]. vm_compute. reflexivity.
  - eexists (ordr_data "SO1001" "" "" "" "" "9").
    assert (ordr_record (series ["Order #"] [VStr "SO1001"])
            = Ok (ordr_data "SO1001" "" "" "" "" "9")) as H by (vm_compute; reflexivity).
    split; [exact H|].
    apply (proj1 constants_and_branch_default _ _ H). vm_compute. reflexivity.
  - eexists (rdr1_data "SO1001" "" "" "" "" "" "" "" "" "" "" "" "" "" "" "9").
    assert (rdr1_record (series ["Parent Order #"] [VStr "SO1001"])
            = Ok (rdr1_data "SO1001" "" "" "" "" "" "" "" "" "" "" "" "" "" "" "9")) as H
      by (vm_compute; reflexivity).
    split; [exact H|].
    apply (proj2 constants_and_branch_default _ _ H). vm_compute. reflexivity.
Defined.

(** C7, counterexample: a blank Branch ID cell gives the empty text at the
    rate position, not "9". *)
Lemma blank_branch_counterexample :
  ∃ data,
    series order_columns blank_branch_order !! "Branch ID" = Some (VFloat PyFloat.NaN)
    ∧ ordr_record (series order_columns blank_branch_order) = Ok data
    ∧ data !! 202%nat = Some "".
Proof. eexists. split; [by vm_compute|]. split; by vm_compute. Qed.

(** C9. In every generated line record each of Dim 1 .. Dim 5, converted
    once, stands both at its costing-code position (20, 87, 88, 89, 90) and
    at its COGS costing-code position (81, 97, 98, 99, 100), so the two
    positions of a dimension always hold the same text. *)
Theorem dimension_mirroring row data :
  rdr1_record row = Ok data →
  ∃ dim1 dim2 dim3 dim4 dim5,
    safe_str (get row "Dim 1" (VStr "")) = Ok dim1
    ∧ safe_str (get row "Dim 2" (VStr "")) = Ok dim2
    ∧ safe_str (get row "Dim 3" (VStr "")) = Ok dim3
    ∧ safe_str (get row "Dim 4" (VStr "")) = Ok dim4
    ∧ safe_str (get row "Dim 5" (VStr "")) = Ok dim5
    ∧ data !! 20%nat = Some dim1 ∧ data !! 81%nat = Some dim1
    ∧ data !! 87%nat = Some dim2 ∧ data !! 97%nat = Some dim2
    ∧ data !! 88%nat = Some dim3 ∧ data !! 98%nat = Some dim3
    ∧ data !! 89%nat = Some dim4 ∧ data !! 99%nat = Some dim4
    ∧ data !! 90%nat = Some dim5 ∧ data !! 100%nat = Some dim5
    ∧ (λ field, RDR1_FIELDS !! field) <$>
        ["CostingCode"; "CostingCode2"; "CostingCode3"; "CostingCode4"; "CostingCode5"]
      = Some <$> [20; 87; 88; 89; 90]%nat
    ∧ (λ field, RDR1_FIELDS !! field) <$>
        ["COGSCostingCode"; "COGSCostingCode2"; "COGSCostingCode3";
         "COGSCostingCode4"; "COGSCostingCode5"]
      = Some <$> [81; 97; 98; 99; 100]%nat.
Proof.
  intros H. apply rdr1_record_inv in H
    as (x1&x2&x3&x4&x5&x6&x7&x8&x9&x10&x11&x12&x13&x14&x15&x16&H).
  destruct H as (_&_&_&_&_&_&_&_&_&H1&H2&H3&H4&H5&_&_&->).
  exists x10, x11, x12, x13, x14.
  do 5 (split; [assumption|]).
  do 10 (split; [reflexivity|]).
  split; vm_compute; reflexivity.
Qed.

(** C9, witness: the line with dimension D100. *)
Lemma dimension_mirroring_witness :
  ∃ data, rdr1_record (series line_columns line_ok) = Ok data
          ∧ data !! 20%nat = Some "D100" ∧ data !! 81%nat = Some "D100".
Proof.
  eexists (rdr1_data "SO1001" "1" "ITM1" "10" "" "SG01" "48" "ACC1" "SR"
                     "D100" "" "" "" "" "" "9").
  assert (rdr1_record (series line_columns line_ok)
          = Ok (rdr1_data "SO1001" "1" "ITM1" "10" "" "SG01" "48" "ACC1" "SR"
                          "D100" "" "" "" "" "" "9")) as H by (vm_compute; reflexivity).
  split; [exact H|].
  destruct (dimension_mirroring _ _ H)
    as (d1 & d2 & d3 & d4 & d5 & E1 & _ & _ & _ & _ & H20 & H81 & _).
  assert (d1 = "D100") as ->.
  { assert (safe_str (get (series line_columns line_ok) "Dim 1" (VStr "")) = Ok "D100")
      as E by (vm_compute; reflexivity).
    rewrite E in E1. by injection E1. }
  by split.
Defined.

(** * The conversion of cells to text *)





(** * Empty and blank tables *)





Lemma Forall_iterrows (P : Series → Prop) df :
  Forall P (rows df) → Forall (λ it : nat * Series, P it.2) (iterrows df).
Proof. rewrite <- (iterrows_rows df), Forall_fmap. done. Qed.




(** * A quantity that is not a number *)

(** C4. A line item row whose Quantity cell holds a text that is no number
    makes [validate_lines] raise [ValueError] out of [float], where the
    claim has it return an error list with a "must be positive" message;
    [main]'s validation block raises with it. *)
Theorem non_numeric_quantity_raises :
  series line_columns line_bad_quantity !! "Quantity" = Some (VStr "abc")
  ∧ py_float (VStr "abc") = Raise ValueError
  ∧ validate_lines lines_bad_quantity (valid_orders orders_example) = Raise ValueError
  ∧ main_validation orders_example lines_bad_quantity = Raise ValueError.
Proof. repeat split; by vm_compute. Qed.

(** X6. The quantity messages of a non-blank row when [validate_lines]
    does return: "Quantity is required" exactly when the cell is null, and
    "Quantity must be positive" exactly when the cell is not null and its
    [float] is [<= 0]; a row never gets both. *)
Lemma quantity_messages df_lines valid errors (i : nat) row :
  validate_lines df_lines valid = Ok errors →
  rows df_lines !! i = Some row →
  line_key row ≠ None →
  (Row (Z.of_nat i + 2) "Quantity is required" ∈ errors
     ↔ pd_isna (get row "Quantity" VNone) = true)
  ∧ (Row (Z.of_nat i + 2) "Quantity must be positive" ∈ errors
     ↔ pd_isna (get row "Quantity" VNone) = false
       ∧ ∃ q, py_float (get row "Quantity" (VInt 0)) = Ok q
              ∧ PyFloat.le_int q 0 = true).
Proof.
  intros Hv Hi Hk.
  assert (∀ t, Row (Z.of_nat i + 2) t ∈ errors ↔ t ∈ line_texts valid row) as Hrow.
  { intros t. rewrite (validate_lines_errors _ _ _ _ _ Hv). split.
    - intros (row' & ? & _ & ?). by simplify_eq.
    - intros ?. by exists row. }
  destruct (required_texts valid row) as (_ & _ & _ & _ & _ & _ & Hq & Hp).
  by rewrite !Hrow.
Qed.

(** * When validation returns *)

Lemma validate_date_format_returns v :
  finite_value v → ∃ ok, validate_date_format v = Ok ok.
Proof.
  intros Hv. unfold validate_date_format.
  destruct v as [|s|n|[|neg|neg m e]|s];
    cbn [pd_isna PyFloat.isnan PyFloat.to_int fmap result_fmap mbind result_bind];
    try by eexists.
  all: try (by destruct (Hv neg)); repeat case_match; by eexists.
Qed.

Lemma validate_orders_body_returns st it :
  finite_cells it.2 → ∃ st', validate_orders_body st it = Ok st'.
Proof.
  destruct st as [errs seen], it as [idx row]. cbn [snd]. intros Hrow.
  unfold validate_orders_body.
  destruct (is_blank (get row "Order #" VNone)); [by eexists|].
  destruct (validate_date_format_returns (get row "Document Date" VNone)) as [b1 H1];
    [by apply get_finite|].
  destruct (validate_date_format_returns (get row "Due Date" VNone)) as [b2 H2];
    [by apply get_finite|].
  rewrite H1, H2.
  destruct (is_blank (get row "Document Date" VNone)),
           (is_blank (get row "Due Date" VNone)); cbn [mbind result_bind]; by eexists.
Qed.

Lemma for_each_returns {A S} (body : S → A → result S) (P : A → Prop) l s :
  (∀ s x, P x → ∃ s', body s x = Ok s') → Forall P l →
  ∃ s', for_each body l s = Ok s'.
Proof.
  intros Hbody Hl. revert s. induction Hl as [|x l Hx _ IH]; intros s; cbn [for_each].
  { by eexists. }
  destruct (Hbody s x Hx) as [s' ->]. cbn [mbind result_bind]. apply IH.
Qed.

(** [validate_orders] returns its error list for every table without an
    infinite float in a cell. *)
Lemma validate_orders_returns df :
  Forall finite_cells (rows df) → ∃ errors, validate_orders df = Ok errors.
Proof.
  intros Hfin. unfold validate_orders. destruct (empty df); [by eexists|].
  destruct (for_each_returns validate_orders_body (λ it, finite_cells it.2)
              (iterrows df) ([], ∅)) as [st ->].
  - intros st it. apply validate_orders_body_returns.
  - by apply (Forall_iterrows finite_cells).
  - by eexists.
Qed.



(** C2, witness: the second of two orders numbered SO1001 is flagged, the
    first is not. *)
Lemma duplicate_order_numbers_witness :
  ∃ errors,
    validate_orders orders_example = Ok errors
    ∧ Row (Z.of_nat 1 + 2) ("Duplicate Order # '" +:+ "SO1001" +:+ "'") ∈ errors
    ∧ ∀ k, Row (Z.of_nat 0 + 2) ("Duplicate Order # '" +:+ k +:+ "'") ∉ errors.
Proof.
  exists ["Row 3: Duplicate Order # 'SO1001'"].
  assert (validate_orders orders_example = Ok ["Row 3: Duplicate Order # 'SO1001'"])
    as Hv by (vm_compute; reflexivity).
  split; [exact Hv|]. split.
  - apply (duplicate_order_numbers orders_example _ 1
             (series order_columns order_again) "SO1001" Hv);
      [reflexivity|vm_compute; reflexivity|].
    exists 0%nat, (series order_columns order_first).
    split; [lia|]. split; [reflexivity|vm_compute; reflexivity].
  - apply (duplicate_order_numbers orders_example _ 0
             (series order_columns order_first) "SO1001" Hv);
      [reflexivity|vm_compute; reflexivity|].
    intros j earlier Hj. lia.
Defined.


(** C10, witness: a row with one space for Line # and for Item Code. *)
Lemma line_number_null_check_only_witness :
  ∃ errors,
    validate_lines lines_example (valid_orders orders_example) = Ok errors
    ∧ (series line_columns line_dangling) !! "Line #" = Some (VStr " ")
    ∧ (series line_columns line_dangling) !! "Item Code" = Some (VStr " ")
    ∧ (Row (Z.of_nat 1 + 2) "Line # is required" ∉ errors)
    ∧ (Row (Z.of_nat 1 + 2) ("Item Code" +:+ " is required") ∈ errors).
Proof.
  exists ["Row 3: Parent Order # 'SO9' not found in Order Headers";
          "Row 3: Item Code is required"].
  assert (validate_lines lines_example (valid_orders orders_example)
          = Ok ["Row 3: Parent Order # 'SO9' not found in Order Headers";
                "Row 3: Item Code is required"]) as Hv by (vm_compute; reflexivity).
  split; [exact Hv|].
  split; [vm_compute; reflexivity|]. split; [vm_compute; reflexivity|].
  destruct (line_number_null_check_only lines_example _ _ 1
              (series line_columns line_dangling) Hv eq_refl
              ltac:(vm_compute; discriminate)) as (_ & Hline & Hothers).
  split.
  - apply (Hline " "); vm_compute; reflexivity.
  - destruct (Hothers "Item Code") as [_ Hitem]; [set_solver|].
    apply (Hitem " "); vm_compute; reflexivity.
Defined.


(** * Further properties *)

(** * More on dates *)














(** * Texts of floats and ints never coincide *)

Lemma format_marked sig decpt : marked (PyFloat.format sig decpt).
Proof.
  unfold PyFloat.format, marked.
  repeat case_match; rewrite ?elem_of_app, ?elem_of_cons; auto 10.
Qed.

Lemma repr_finite_marked m e : marked (PyFloat.repr_finite m e).
Proof.
  unfold PyFloat.repr_finite. destruct m; [left; set_solver|].
  destruct (PyFloat.normalize _ _), (PyFloat.shortest _ _ _ _ _).
  apply format_marked.
Qed.

Lemma float_text_marked neg m e :
  marked (PyStr.chars (PyFloat.to_str (PyFloat.Fin neg m e))).
Proof.
  unfold PyFloat.to_str. rewrite chars_of_chars.
  destruct (repr_finite_marked m e); [left|right]; apply elem_of_app; by right.
Qed.

Lemma int_text_unmarked n : ¬ marked (PyStr.chars (PyInt.to_str n)).
Proof.
  pose proof (to_str_chars n) as Hall. rewrite Forall_forall in Hall.
  intros [H|H]; by destruct (Hall _ H).
Qed.

(** The text of a float is never the text of an int. *)
Lemma float_text_not_int f n : PyFloat.to_str f ≠ PyInt.to_str n.
Proof.
  intros H. destruct f as [|neg|neg m e].
  - pose proof (to_str_chars n) as Hall. rewrite <- H in Hall.
    apply Forall_cons in Hall as [[?|?] _]; done.
  - pose proof (to_str_chars n) as Hall. rewrite <- H in Hall.
    destruct neg; cbn in Hall.
    + apply Forall_cons in Hall as [_ [[?|?] _]%Forall_cons]; done.
    + apply Forall_cons in Hall as [[?|?] _]; done.
  - apply (int_text_unmarked n). rewrite <- H. apply float_text_marked.
Qed.


(** * Emitted fields are trimmed *)

Lemma drop_while_head p l :
  match PyStr.drop_while p l with c :: _ => p c = false | [] => True end.
Proof. induction l as [|c l IH]; [done|]. cbn. by destruct (p c) eqn:Hc; [|cbn]. Qed.

Lemma drop_while_fixed p l :
  match l with c :: _ => p c = false | [] => True end → PyStr.drop_while p l = l.
Proof. destruct l as [|c l]; [done|]. cbn. by intros ->. Qed.

Lemma drop_while_snoc p l c :
  p c = false → ∃ l', PyStr.drop_while p (l ++ [c]) = l' ++ [c].
Proof.
  intros Hc. induction l as [|x l [l' IH]]; cbn.
  - rewrite Hc. by exists [].
  - destruct (p x); [by exists l'|]. by exists (x :: l).
Qed.

Lemma strip_with_fixed p l :
  match l with c :: _ => p c = false | [] => True end →
  match reverse l with c :: _ => p c = false | [] => True end →
  PyStr.strip_with p l = l.
Proof.
  intros H1 H2. unfold PyStr.strip_with.
  rewrite (drop_while_fixed p l H1), (drop_while_fixed p _ H2).
  apply reverse_involutive.
Qed.

Lemma strip_with_idemp p l :
  PyStr.strip_with p (PyStr.strip_with p l) = PyStr.strip_with p l.
Proof.
  apply strip_with_fixed; unfold PyStr.strip_with.
  - pose proof (drop_while_head p l) as H1.
    destruct (PyStr.drop_while p l) as [|c l1]; [done|].
    rewrite reverse_cons.
    destruct (drop_while_snoc p (reverse l1) c H1) as [l' ->].
    by rewrite reverse_app.
  - rewrite reverse_involutive. apply drop_while_head.
Qed.

Lemma strip_idemp s : PyStr.strip (PyStr.strip s) = PyStr.strip s.
Proof. unfold PyStr.strip. by rewrite chars_of_chars, strip_with_idemp. Qed.

Lemma safe_str_trimmed v s : safe_str v = Ok s → PyStr.strip s = s.
Proof.
  unfold safe_str. destruct (pd_isna v); [by intros [= <-]|].
  destruct v as [|t|n|f|t]; try (intros [= <-]; apply strip_idemp).
  destruct f as [|neg|neg m e]; try done.
  cbn [PyFloat.to_int mbind result_bind py_str].
  case_match; intros [= <-]; [apply strip_int_text|apply strip_float_text].
Qed.

Lemma format_date_trimmed v s : format_date v = Ok s → PyStr.strip s = s.
Proof.
  unfold format_date. destruct (pd_isna v); [by intros [= <-]|].
  destruct v as [|t|n|f|t]; try (intros [= <-]; apply strip_idemp).
  - intros [= <-]. apply strip_int_text.
  - destruct f as [|neg|neg m e]; try done. intros [= <-]. apply strip_int_text.
Qed.

(** X4. No field of a generated record has white space at its start or
    end: every field is empty, a constant, or a cell converted by
    [safe_str] or [format_date], whose results are always trimmed. *)
Theorem emitted_fields_are_trimmed :
  (∀ v s, safe_str v = Ok s → PyStr.strip s = s)
  ∧ (∀ v s, format_date v = Ok s → PyStr.strip s = s)
  ∧ (∀ row data, ordr_record row = Ok data → Forall (λ x, PyStr.strip x = x) data)
  ∧ (∀ row data, rdr1_record row = Ok data → Forall (λ x, PyStr.strip x = x) data).
Proof.
  split; [exact safe_str_trimmed|]. split; [exact format_date_trimmed|]. split.
  - intros row data (a&b&c&d&e&f&Ha&Hb&Hc&Hd&He&Hf&->)%ordr_record_inv.
    unfold ordr_data.
    repeat (apply Forall_insert;
            [|solve [eapply safe_str_trimmed; eassumption
                    |eapply format_date_trimmed; eassumption
                    |vm_compute; reflexivity]]).
    by apply Forall_replicate.
  - intros row data H. apply rdr1_record_inv in H
      as (x1&x2&x3&x4&x5&x6&x7&x8&x9&x10&x11&x12&x13&x14&x15&x16&H).
    destruct H as (H1&H2&H3&H4&H5&H6&H7&H8&H9&H10&H11&H12&H13&H14&H15&H16&->).
    unfold rdr1_data.
    repeat (apply Forall_insert; [|solve [eapply safe_str_trimmed; eassumption]]).
    by apply Forall_replicate.
Qed.

Lemma emitted_fields_are_trimmed_witness :
  PyStr.strip "C 001" = "C 001"
  ∧ ∃ data, ordr_record (series order_columns
              [VStr " SO1 "; VInt 20260101; VStr "20260110 "; VStr "  C 001";
               VFloat (PyFloat.Fin false 48 0); VNone]) = Ok data
            ∧ Forall (λ x, PyStr.strip x = x) data.
Proof.
  split.
  - apply (proj1 emitted_fields_are_trimmed (VStr "  C 001")). vm_compute. reflexivity.
  - eexists (ordr_data "SO1" "20260101" "20260110" "C 001" "48" "").
    assert (ordr_record (series order_columns
              [VStr " SO1 "; VInt 20260101; VStr "20260110 "; VStr "  C 001";
               VFloat (PyFloat.Fin false 48 0); VNone])
            = Ok (ordr_data "SO1" "20260101" "20260110" "C 001" "48" "")) as H
      by (vm_compute; reflexivity).
    split; [exact H|].
    exact (proj1 (proj2 (proj2 emitted_fields_are_trimmed)) _ _ H).
Defined.

(** * The messages of an order row *)

Lemma elem_of_date_texts_iff (x req fmt : string) v :
  x ∈ (if is_blank v then [req]
       else match validate_date_format v with
            | Ok false => [fmt]
            | _ => []
            end)
  ↔ is_blank v = true ∧ x = req
    ∨ is_blank v = false ∧ validate_date_format v = Ok false ∧ x = fmt.
Proof.
  destruct (is_blank v); [|destruct (validate_date_format v) as [[]|]];
    rewrite ?list_elem_of_singleton, ?elem_of_nil; intuition congruence.
Qed.

Lemma elem_of_order_texts seen row t :
  t ∈ order_texts seen row ↔
    (bool_decide (PyStr.strip (py_str (get row "Order #" VNone)) ∈ seen) = true
     ∧ t = "Duplicate Order # '" +:+ PyStr.strip (py_str (get row "Order #" VNone)) +:+ "'")
    ∨ (is_blank (get row "Document Date" VNone) = true
       ∧ t = "Document Date is required"
       ∨ is_blank (get row "Document Date" VNone) = false
         ∧ validate_date_format (get row "Document Date" VNone) = Ok false
         ∧ t = "Document Date must be YYYYMMDD format")
    ∨ (is_blank (get row "Due Date" VNone) = true
       ∧ t = "Due Date is required"
       ∨ is_blank (get row "Due Date" VNone) = false
         ∧ validate_date_format (get row "Due Date" VNone) = Ok false
         ∧ t = "Due Date must be YYYYMMDD format")
    ∨ (is_blank (get row "Customer Code" VNone) = true ∧ t = "Customer Code is required")
    ∨ (is_blank (get row "Sales Code" VNone) = true ∧ t = "Sales Code is required").
Proof.
  unfold order_texts.
  rewrite !elem_of_app, !elem_of_if_singleton, !elem_of_date_texts_iff. done.
Qed.

Lemma order_row_texts df errors (i : nat) row :
  validate_orders df = Ok errors → rows df !! i = Some row → order_key row ≠ None →
  ∀ t, Row (Z.of_nat i + 2) t ∈ errors
       ↔ t ∈ order_texts (list_to_set (omap order_key (take i (rows df)))) row.
Proof.
  intros Hv Hi Hk t. rewrite (validate_orders_errors _ _ _ _ Hv). split.
  - intros (row' & ? & _ & ?). by simplify_eq.
  - intros ?. by exists row.
Qed.

Lemma line_row_texts df valid errors (i : nat) row :
  validate_lines df valid = Ok errors → rows df !! i = Some row → line_key row ≠ None →
  ∀ t, Row (Z.of_nat i + 2) t ∈ errors ↔ t ∈ line_texts valid row.
Proof.
  intros Hv Hi Hk t. rewrite (validate_lines_errors _ _ _ _ _ Hv). split.
  - intros (row' & ? & _ & ?). by simplify_eq.
  - intros ?. by exists row.
Qed.

(** X5. For a non-blank order row, the errors [validate_orders] returns
    hold "Document Date is required" exactly when the cell is null or trims
    to nothing, and "Document Date must be YYYYMMDD format" exactly when the
    cell is there and [validate_date_format] rejects it, never both; the
    same for Due Date; and "Customer Code is required" and "Sales Code is
    required" exactly when those cells are null or trim to nothing.  All
    violated rules of the row are reported, not only the first. *)
Theorem order_field_messages df_orders errors (i : nat) row :
  validate_orders df_orders = Ok errors →
  rows df_orders !! i = Some row →
  order_key row ≠ None →
  (Row (Z.of_nat i + 2) "Document Date is required" ∈ errors
     ↔ is_blank (get row "Document Date" VNone) = true)
  ∧ (Row (Z.of_nat i + 2) "Document Date must be YYYYMMDD format" ∈ errors
     ↔ is_blank (get row "Document Date" VNone) = false
       ∧ validate_date_format (get row "Document Date" VNone) = Ok false)
  ∧ (Row (Z.of_nat i + 2) "Due Date is required" ∈ errors
     ↔ is_blank (get row "Due Date" VNone) = true)
  ∧ (Row (Z.of_nat i + 2) "Due Date must be YYYYMMDD format" ∈ errors
     ↔ is_blank (get row "Due Date" VNone) = false
       ∧ validate_date_format (get row "Due Date" VNone) = Ok false)
  ∧ (Row (Z.of_nat i + 2) "Customer Code is required" ∈ errors
     ↔ is_blank (get row "Customer Code" VNone) = true)
  ∧ (Row (Z.of_nat i + 2) "Sales Code is required" ∈ errors
     ↔ is_blank (get row "Sales Code" VNone) = true).
Proof.
  intros Hv Hi Hk. rewrite !(order_row_texts _ _ _ _ Hv Hi Hk).
  repeat apply conj;
    try (intros H; apply elem_of_order_texts in H
           as [[_ H]|[[[? H]|(? & ? & H)]|[[[? H]|(? & ? & H)]|[[? H]|[? H]]]]];
         try discriminate H; done);
    intros H; apply elem_of_order_texts; tauto.
Qed.

Lemma order_field_messages_witness :
  ∃ errors,
    validate_orders orders_faulty = Ok errors
    ∧ Row (Z.of_nat 1 + 2) "Due Date is required" ∈ errors
    ∧ Row (Z.of_nat 1 + 2) "Document Date must be YYYYMMDD format" ∈ errors
    ∧ Row (Z.of_nat 1 + 2) "Document Date is required" ∉ errors.
Proof.
  exists ["Row 3: Document Date must be YYYYMMDD format";
          "Row 3: Due Date is required";
          "Row 3: Customer Code is required";
          "Row 3: Sales Code is required"].
  assert (validate_orders orders_faulty
          = Ok ["Row 3: Document Date must be YYYYMMDD format";
                "Row 3: Due Date is required";
                "Row 3: Customer Code is required";
                "Row 3: Sales Code is required"]) as Hv by (vm_compute; reflexivity).
  split; [exact Hv|].
  assert (order_key (series order_columns order_faulty) ≠ None) as Hk
    by (vm_compute; discriminate).
  destruct (order_field_messages orders_faulty _ 1 (series order_columns order_faulty)
              Hv eq_refl Hk) as (Hreq & Hfmt & Hdue & _).
  split; [|split].
  - apply Hdue. vm_compute. reflexivity.
  - apply Hfmt. split; vm_compute; reflexivity.
  - rewrite Hreq. vm_compute. discriminate.
Defined.

Lemma quantity_messages_witness :
  ∃ errors,
    validate_lines lines_quantities (valid_orders orders_example) = Ok errors
    ∧ Row (Z.of_nat 1 + 2) "Quantity must be positive" ∈ errors
    ∧ Row (Z.of_nat 2 + 2) "Quantity is required" ∈ errors.
Proof.
  exists ["Row 2: Quantity must be positive";
          "Row 3: Quantity must be positive";
          "Row 4: Quantity is required"].
  assert (validate_lines lines_quantities (valid_orders orders_example)
          = Ok ["Row 2: Quantity must be positive";
                "Row 3: Quantity must be positive";
                "Row 4: Quantity is required"]) as Hv by (vm_compute; reflexivity).
  split; [exact Hv|]. split.
  - assert (line_key (series line_columns (line_quantity (VStr "-2.5"))) ≠ None) as Hk
      by (vm_compute; discriminate).
    apply (proj2 (quantity_messages lines_quantities _ _ 1
                    (series line_columns (line_quantity (VStr "-2.5"))) Hv eq_refl Hk)).
    split; [vm_compute; reflexivity|].
    exists (PyFloat.Fin true 5629499534213120 (-51)). split; vm_compute; reflexivity.
  - assert (line_key (series line_columns (line_quantity (VFloat PyFloat.NaN))) ≠ None)
      as Hk by (vm_compute; discriminate).
    apply (proj1 (quantity_messages lines_quantities _ _ 2
                    (series line_columns (line_quantity (VFloat PyFloat.NaN)))
                    Hv eq_refl Hk)).
    vm_compute. reflexivity.
Defined.

(** * Which rows the errors name *)

(** X7. A blank row, one whose key cell is null or trims to nothing, is
    silent whatever its other cells hold: no error that [validate_orders]
    or [validate_lines] returns carries its row number. *)
Theorem blank_rows_are_silent df valid (i : nat) row :
  rows df !! i = Some row →
  (order_key row = None →
     ∀ errors t, validate_orders df = Ok errors → Row (Z.of_nat i + 2) t ∉ errors)
  ∧ (line_key row = None →
     ∀ errors t, validate_lines df valid = Ok errors → Row (Z.of_nat i + 2) t ∉ errors).
Proof.
  intros Hi. split; intros Hk errors t Hv Hin.
  - apply (validate_orders_errors _ _ _ _ Hv) in Hin as (row' & ? & Hk' & _).
    by simplify_eq.
  - apply (validate_lines_errors _ _ _ _ _ Hv) in Hin as (row' & ? & Hk' & _).
    by simplify_eq.
Qed.

Lemma blank_rows_are_silent_witness :
  validate_orders blank_rows = Ok []
  ∧ ∀ t, Row (Z.of_nat 1 + 2) t ∉ ([] : list string).
Proof.
  assert (validate_orders blank_rows = Ok []) as Hv by (vm_compute; reflexivity).
  split; [exact Hv|]. intros t.
  assert (∃ row, rows blank_rows !! 1%nat = Some row ∧ order_key row = None)
    as (row & Hi & Hk) by (eexists; split; [reflexivity|vm_compute; reflexivity]).
  exact (proj1 (blank_rows_are_silent blank_rows ∅ 1 row Hi) Hk [] t Hv).
Defined.

Lemma elem_of_orders_errors_row seen its e :
  e ∈ orders_errors seen its →
  ∃ it seen', it ∈ its ∧ e ∈ row_errors "Order #" (order_texts seen') it.
Proof.
  revert seen. induction its as [|it its IH]; intros seen; cbn [orders_errors].
  { by intros ?%elem_of_nil. }
  intros [H|H]%elem_of_app.
  - exists it, seen. split; [by left|done].
  - apply IH in H as (it' & seen' & ? & ?). exists it', seen'. split; [by right|done].
Qed.

Lemma elem_of_row_errors_inv label texts it e :
  e ∈ row_errors label texts it →
  row_key label it.2 ≠ None ∧ ∃ t, e = Row (Z.of_nat it.1 + 2) t ∧ t ∈ texts it.2.
Proof.
  unfold row_errors, row_key. destruct (is_blank _); [by intros ?%elem_of_nil|].
  intros (t & -> & ?)%list_elem_of_fmap. split; [done|]. by exists t.
Qed.

Lemma orders_errors_named df errors e :
  validate_orders df = Ok errors → e ∈ errors → empty df = false →
  ∃ (i : nat) row t,
    rows df !! i = Some row ∧ order_key row ≠ None ∧ e = Row (Z.of_nat i + 2) t.
Proof.
  intros Hv He Hem. unfold validate_orders in Hv. rewrite Hem in Hv.
  apply fmap_Ok in Hv as ([errs seen] & Hv & ->).
  apply validate_orders_loop in Hv as ->. cbn [app fst] in He.
  apply elem_of_orders_errors_row in He as ([idx row] & seen' & Hin & He).
  apply elem_of_lookup_imap in Hin as (i & row' & [= -> ->] & Hi).
  apply elem_of_row_errors_inv in He as (Hk & t & -> & _).
  exists i, row', t. eauto.
Qed.

Lemma lines_errors_named df valid errors e :
  validate_lines df valid = Ok errors → e ∈ errors → empty df = false →
  ∃ (i : nat) row t,
    rows df !! i = Some row ∧ line_key row ≠ None ∧ e = Row (Z.of_nat i + 2) t.
Proof.
  intros Hv He Hem. unfold validate_lines in Hv. rewrite Hem in Hv.
  apply validate_lines_loop in Hv as ->. cbn [app] in He.
  apply list_elem_of_bind in He as ([idx row] & He & Hin).
  apply elem_of_lookup_imap in Hin as (i & row' & [= -> ->] & Hi).
  apply elem_of_row_errors_inv in He as (Hk & t & -> & _).
  exists i, row', t. eauto.
Qed.

(** X8. Every error [validate_orders] or [validate_lines] returns is either
    the one "no records found" message of an empty table, or starts with
    "Row n: " where n is the index of a non-blank row of the table plus 2;
    so the numbers run from 2 to the number of rows plus 1, the first data
    row being row 2. *)
Theorem errors_name_rows df valid :
  (∀ errors e, validate_orders df = Ok errors → e ∈ errors →
     (empty df = true ∧ errors = ["No orders found in 'Sales Order Entry' sheet"])
     ∨ ∃ (i : nat) row t,
         rows df !! i = Some row ∧ order_key row ≠ None
         ∧ e = Row (Z.of_nat i + 2) t ∧ (i < length (values df))%nat)
  ∧ (∀ errors e, validate_lines df valid = Ok errors → e ∈ errors →
     (empty df = true ∧ errors = ["No line items found in 'Line Items Entry' sheet"])
     ∨ ∃ (i : nat) row t,
         rows df !! i = Some row ∧ line_key row ≠ None
         ∧ e = Row (Z.of_nat i + 2) t ∧ (i < length (values df))%nat).
Proof.
  assert (∀ (i : nat) row, rows df !! i = Some row → (i < length (values df))%nat) as Hlt.
  { intros i row Hi%lookup_lt_Some. unfold rows in Hi. by rewrite length_fmap in Hi. }
  split; intros errors e Hv He; destruct (empty df) eqn:Hem.
  - left. unfold validate_orders in Hv. rewrite Hem in Hv. by injection Hv as <-.
  - right. destruct (orders_errors_named _ _ _ Hv He Hem) as (i & row & t & ? & ? & ?).
    exists i, row, t. eauto.
  - left. unfold validate_lines in Hv. rewrite Hem in Hv. by injection Hv as <-.
  - right. destruct (lines_errors_named _ _ _ _ Hv He Hem) as (i & row & t & ? & ? & ?).
    exists i, row, t. eauto.
Qed.

Lemma errors_name_rows_witness :
  ∃ (i : nat) row t,
    rows orders_faulty !! i = Some row ∧ order_key row ≠ None
    ∧ "Row 3: Due Date is required" = Row (Z.of_nat i + 2) t
    ∧ (i < length (values orders_faulty))%nat.
Proof.
  assert (validate_orders orders_faulty
          = Ok ["Row 3: Document Date must be YYYYMMDD format";
                "Row 3: Due Date is required";
                "Row 3: Customer Code is required";
                "Row 3: Sales Code is required"]) as Hv by (vm_compute; reflexivity).
  assert ("Row 3: Due Date is required"
          ∈ ["Row 3: Document Date must be YYYYMMDD format";
             "Row 3: Due Date is required";
             "Row 3: Customer Code is required";
             "Row 3: Sales Code is required"]) as Hin by (right; left).
  destruct (proj1 (errors_name_rows orders_faulty ∅) _ _ Hv Hin) as [[H _]|H].
  - vm_compute in H. discriminate H.
  - exact H.
Defined.

(** * Tables that pass validation *)

Lemma for_each_steps {A S} (body : S → A → result S) l s s' :
  for_each body l s = Ok s' → ∀ x, x ∈ l → ∃ s1 s2, body s1 x = Ok s2.
Proof.
  revert s. induction l as [|y l IH]; intros s H x Hx; cbn [for_each] in H.
  { by apply elem_of_nil in Hx. }
  apply bind_Ok in H as (s1 & H1 & H). apply elem_of_cons in Hx as [->|Hx].
  - by exists s, s1.
  - by apply (IH s1).
Qed.




Lemma validate_lines_body_quantity valid errs it errs' :
  validate_lines_body valid errs it = Ok errs' → line_key it.2 ≠ None →
  quantity_converts it.2.
Proof.
  destruct it as [idx row]. cbn [snd].
  intros H Hk%row_key_not_None. unfold validate_lines_body in H. rewrite Hk in H.
  unfold quantity_converts. destruct (pd_isna (get row "Quantity" VNone)); [by left|].
  right. destruct (py_float (get row "Quantity" (VInt 0))); [by eexists|].
  cbn [mbind result_bind] in H. discriminate H.
Qed.

Lemma elem_of_iterrows df (i : nat) row :
  rows df !! i = Some row → (i, row) ∈ iterrows df.
Proof. intros Hi. unfold iterrows. apply elem_of_lookup_imap. by exists i, row. Qed.


Lemma validate_lines_quantity df valid errors (i : nat) row :
  validate_lines df valid = Ok errors → rows df !! i = Some row → line_key row ≠ None →
  quantity_converts row.
Proof.
  intros Hv Hi Hk. unfold validate_lines in Hv. destruct (empty df) eqn:Hem.
  { destruct Hk. by apply (empty_no_keys df _ i row). }
  destruct (for_each_steps _ _ _ _ Hv (i, row) (elem_of_iterrows _ _ _ Hi))
    as (s1 & s2 & Hb).
  by apply (validate_lines_body_quantity _ _ _ _ Hb).
Qed.




(** What a clean line item row is. *)
Lemma lines_clean_row df valid (i : nat) row :
  validate_lines df valid = Ok [] → rows df !! i = Some row → line_key row ≠ None →
  PyStr.strip (py_str (get row "Parent Order #" VNone)) ∈ valid
  ∧ pd_isna (get row "Line #" VNone) = false
  ∧ is_blank (get row "Item Code" VNone) = false
  ∧ (pd_isna (get row "Quantity" VNone) = false
     ∧ ∃ q, py_float (get row "Quantity" (VInt 0)) = Ok q ∧ PyFloat.le_int q 0 = false)
  ∧ is_blank (get row "Warehouse" VNone) = false
  ∧ is_blank (get row "Sales Code" VNone) = false
  ∧ is_blank (get row "Account Code" VNone) = false
  ∧ is_blank (get row "VAT Group" VNone) = false.
Proof.
  intros Hv Hi Hk.
  assert (∀ t, t ∉ line_texts valid row) as Hno.
  { intros t Ht. apply (line_row_texts _ _ _ _ _ Hv Hi Hk) in Ht.
    by apply elem_of_nil in Ht. }
  pose proof (validate_lines_quantity _ _ _ _ _ Hv Hi Hk) as Hq.
  assert (∀ b : bool, (b = true → False) → b = false) as Hb by (by intros []; auto).
  repeat apply conj.
  - destruct (decide (PyStr.strip (py_str (get row "Parent Order #" VNone)) ∈ valid))
      as [|Hnot]; [done|].
    destruct (Hno ("Parent Order # '"
                   +:+ PyStr.strip (py_str (get row "Parent Order #" VNone))
                   +:+ "' not found in Order Headers")).
    apply elem_of_line_texts. left. by rewrite bool_decide_eq_true.
  - apply Hb. intros H. apply (Hno "Line # is required"), elem_of_line_texts. tauto.
  - apply Hb. intros H. apply (Hno "Item Code is required"), elem_of_line_texts. tauto.
  - apply Hb. intros H. apply (Hno "Quantity is required"), elem_of_line_texts. tauto.
  - destruct Hq as [Hq|[q Hq]].
    { destruct (Hno "Quantity is required"). apply elem_of_line_texts. tauto. }
    exists q. split; [done|]. apply Hb. intros H.
    destruct (pd_isna (get row "Quantity" VNone)) eqn:Hna.
    + destruct (Hno "Quantity is required"). apply elem_of_line_texts. tauto.
    + destruct (Hno "Quantity must be positive"). apply elem_of_line_texts.
      do 3 right. left. right. split; [done|]. split; [|done]. by exists q.
  - apply Hb. intros H. apply (Hno "Warehouse is required"), elem_of_line_texts. tauto.
  - apply Hb. intros H. apply (Hno "Sales Code is required"), elem_of_line_texts. tauto.
  - apply Hb. intros H. apply (Hno "Account Code is required"), elem_of_line_texts.
    tauto.
  - apply Hb. intros H. apply (Hno "VAT Group is required"), elem_of_line_texts. tauto.
Qed.


(** * Missing columns *)

Lemma missing_label (label : string) (labels : list string) :
  bool_decide (label ∈ labels) = false → label ∉ labels.
Proof. apply bool_decide_eq_false. Qed.

Lemma series_missing labels cells label :
  label ∉ labels → series labels cells !! label = None.
Proof.
  intros Hl. unfold series. apply not_elem_of_list_to_map_1.
  intros ([k v] & -> & Hin)%list_elem_of_fmap. by apply elem_of_zip_l in Hin.
Qed.

Lemma rows_missing df (i : nat) row label default :
  label ∉ columns df → rows df !! i = Some row → get row label default = default.
Proof.
  intros Hl Hi. unfold rows in Hi. rewrite list_lookup_fmap in Hi.
  destruct (values df !! i) as [cells|]; [|done]. injection Hi as <-.
  apply get_None. by apply series_missing.
Qed.

(** X11. A required column that the sheet does not have at all counts as
    blank in every row: [row.get] answers [None], so each non-blank row
    gets the "... is required" message of that column, in [validate_orders]
    for Document Date, Due Date, Customer Code and Sales Code and in
    [validate_lines] for Line #, Item Code, Quantity, Warehouse, Sales Code,
    Account Code and VAT Group; no [KeyError] is raised. *)
Theorem missing_column_is_required df valid errors (i : nat) row label :
  label ∉ columns df →
  rows df !! i = Some row →
  (validate_orders df = Ok errors → order_key row ≠ None →
   label ∈ ["Document Date"; "Due Date"; "Customer Code"; "Sales Code"] →
   Row (Z.of_nat i + 2) (label +:+ " is required") ∈ errors)
  ∧ (validate_lines df valid = Ok errors → line_key row ≠ None →
     label ∈ ["Line #"; "Item Code"; "Quantity"; "Warehouse"; "Sales Code";
              "Account Code"; "VAT Group"] →
     Row (Z.of_nat i + 2) (label +:+ " is required") ∈ errors).
Proof.
  intros Hl Hi.
  pose proof (rows_missing df i row label VNone Hl Hi) as Hget.
  split; intros Hv Hk Hin.
  - apply (order_row_texts _ _ _ _ Hv Hi Hk), elem_of_order_texts.
    repeat (apply elem_of_cons in Hin as [->|Hin]); [..|by apply elem_of_nil in Hin];
      rewrite Hget; cbn [is_blank pd_isna orb]; tauto.
  - apply (line_row_texts _ _ _ _ _ Hv Hi Hk), elem_of_line_texts.
    repeat (apply elem_of_cons in Hin as [->|Hin]); [..|by apply elem_of_nil in Hin];
      rewrite Hget; cbn [is_blank pd_isna orb]; tauto.
Qed.

Lemma missing_column_is_required_witness :
  validate_orders orders_no_customer = Ok ["Row 2: Customer Code is required"]
  ∧ Row (Z.of_nat 0 + 2) ("Customer Code" +:+ " is required")
      ∈ ["Row 2: Customer Code is required"].
Proof.
  assert (validate_orders orders_no_customer = Ok ["Row 2: Customer Code is required"])
    as Hv by (vm_compute; reflexivity).
  split; [exact Hv|].
  assert ("Customer Code" ∉ columns orders_no_customer) as Hl.
  { apply missing_label. vm_compute. reflexivity. }
  assert (∃ row, rows orders_no_customer !! 0%nat = Some row ∧ order_key row ≠ None)
    as (row & Hi & Hk) by (eexists; split; [reflexivity|vm_compute; discriminate]).
  apply (proj1 (missing_column_is_required orders_no_customer ∅ _ 0 row "Customer Code"
                  Hl Hi) Hv Hk).
  do 2 right. left.
Defined.

(** * Tables without a non-blank row *)

Lemma for_each_skip {A S} (body : S → A → result S) l s :
  Forall (λ x, ∀ s, body s x = Ok s) l → for_each body l s = Ok s.
Proof.
  induction 1 as [|x l Hx _ IH]; cbn [for_each]; [done|].
  rewrite Hx. cbn [mbind result_bind]. apply IH.
Qed.

Lemma generate_loop_blank label (record : Series → result (list string)) df lines :
  Forall (λ row, row_key label row = None) (rows df) →
  for_each (λ lines (it : nat * Series),
              if is_blank (get it.2 label VNone) then Ok lines else
              data ← record it.2;
              Ok (lines ++ [PyStr.join PyStr.TAB data])) (iterrows df) lines
  = Ok lines.
Proof.
  intros Hb. apply for_each_skip.
  apply (Forall_iterrows (λ row, row_key label row = None)) in Hb.
  eapply Forall_impl; [exact Hb|]. intros [idx row] Hk s. cbn [snd] in *.
  unfold row_key in Hk. by destruct (is_blank (get row label VNone)).
Qed.

Lemma missing_key_column df label :
  label ∉ columns df → Forall (λ row, row_key label row = None) (rows df).
Proof.
  intros Hl. apply Forall_lookup. intros i row Hi. unfold row_key.
  by rewrite (rows_missing df i row label VNone Hl Hi).
Qed.

(** X12. A table without a non-blank row gives a file of the two header
    lines only, each ended by CR LF: this is so for a table without rows,
    for one whose key cells are all null or white space, and for one that
    lacks the key column altogether.  No cell of such a table is converted,
    so nothing can be raised. *)
Theorem blank_table_files df :
  (Forall (λ row, order_key row = None) (rows df) →
     generate_ordr_file df = Ok (headers_only ORDR_HEADER_ROW1 ORDR_HEADER_ROW2))
  ∧ (Forall (λ row, line_key row = None) (rows df) →
     generate_rdr1_file df = Ok (headers_only RDR1_HEADER_ROW1 RDR1_HEADER_ROW2))
  ∧ (values df = [] ∨ "Order #" ∉ columns df →
     generate_ordr_file df = Ok (headers_only ORDR_HEADER_ROW1 ORDR_HEADER_ROW2))
  ∧ (values df = [] ∨ "Parent Order #" ∉ columns df →
     generate_rdr1_file df = Ok (headers_only RDR1_HEADER_ROW1 RDR1_HEADER_ROW2)).
Proof.
  assert (∀ label, values df = [] ∨ label ∉ columns df →
            Forall (λ row, row_key label row = None) (rows df)) as Hblank.
  { intros label [Hv|Hl]; [|by apply missing_key_column].
    unfold rows. rewrite Hv. by apply Forall_nil. }
  assert (Forall (λ row, order_key row = None) (rows df) →
          generate_ordr_file df = Ok (headers_only ORDR_HEADER_ROW1 ORDR_HEADER_ROW2))
    as Hordr.
  { intros Hb. unfold generate_ordr_file.
    rewrite (generate_loop_blank "Order #" ordr_record df _ Hb). done. }
  assert (Forall (λ row, line_key row = None) (rows df) →
          generate_rdr1_file df = Ok (headers_only RDR1_HEADER_ROW1 RDR1_HEADER_ROW2))
    as Hrdr1.
  { intros Hb. unfold generate_rdr1_file.
    rewrite (generate_loop_blank "Parent Order #" rdr1_record df _ Hb). done. }
  split; [done|]. split; [done|]. split; intros H.
  - by apply Hordr, Hblank.
  - by apply Hrdr1, Hblank.
Qed.

Lemma blank_table_files_witness :
  generate_ordr_file blank_rows = Ok (headers_only ORDR_HEADER_ROW1 ORDR_HEADER_ROW2)
  ∧ generate_rdr1_file blank_rows = Ok (headers_only RDR1_HEADER_ROW1 RDR1_HEADER_ROW2)
  ∧ generate_rdr1_file orders_example
    = Ok (headers_only RDR1_HEADER_ROW1 RDR1_HEADER_ROW2).
Proof.
  destruct (blank_table_files blank_rows) as (H1 & H2 & _).
  destruct (blank_table_files orders_example) as (_ & _ & _ & H4).
  split; [|split].
  - apply H1. repeat constructor.
  - apply H2. repeat constructor.
  - apply H4. right. apply missing_label. vm_compute. reflexivity.
Defined.

(** * Keys as validated and keys as written *)

Lemma int_text_nonempty n : PyInt.to_str n ≠ "".
Proof.
  unfold PyInt.to_str. destruct (Z.to_int n) as [d|d]; [|done].
  destruct d; cbn; discriminate.
Qed.

Lemma float_key_text f : PyStr.strip (PyFloat.to_str f) = PyFloat.to_str f.
Proof. destruct f as [|[]|neg m e]; try done. apply strip_float_text. Qed.

(** X13. The validators compare keys as texts of [str]: the key of a float
    cell, such as [1001.0], is never the key of an int cell, such as
    [1001].  So when every Order # cell is a float or null (as pandas reads
    a numeric column with a blank in it), each line item row whose Parent
    Order # cell is an int is reported as not found in the order headers,
    although [safe_str] would write the same number for both. *)
Theorem float_keys_miss_int_keys df_orders df_lines errors (i : nat) row n :
  (∀ order, order ∈ rows df_orders →
     pd_isna (get order "Order #" VNone) = true
     ∨ ∃ f, get order "Order #" VNone = VFloat f) →
  validate_lines df_lines (valid_orders df_orders) = Ok errors →
  rows df_lines !! i = Some row →
  get row "Parent Order #" VNone = VInt n →
  Row (Z.of_nat i + 2)
      ("Parent Order # '" +:+ PyInt.to_str n +:+ "' not found in Order Headers")
    ∈ errors.
Proof.
  intros Hfloat Hv Hi Hn.
  assert (line_key row ≠ None) as Hk.
  { apply row_key_not_None, is_blank_false. rewrite Hn. split; [done|].
    cbn [py_str]. rewrite strip_int_text. apply int_text_nonempty. }
  apply (line_row_texts _ _ _ _ _ Hv Hi Hk), elem_of_line_texts. left.
  rewrite Hn. cbn [py_str]. rewrite strip_int_text. split; [|done].
  apply bool_decide_eq_true. intros (order & Hin & Hna & Heq)%elem_of_valid_orders.
  destruct (Hfloat order Hin) as [Hna'|[f Hf]]; [congruence|].
  rewrite Hf in Heq. cbn [py_str] in Heq. rewrite float_key_text in Heq.
  by apply (float_text_not_int f n).
Qed.

Lemma float_keys_miss_int_keys_witness :
  validate_lines lines_int_keys (valid_orders orders_float_keys)
    = Ok ["Row 2: Parent Order # '1001' not found in Order Headers"]
  ∧ safe_str (VFloat (PyFloat.Fin false 1001 0)) = safe_str (VInt 1001)
  ∧ Row (Z.of_nat 0 + 2)
      ("Parent Order # '" +:+ PyInt.to_str 1001 +:+ "' not found in Order Headers")
    ∈ ["Row 2: Parent Order # '1001' not found in Order Headers"].
Proof.
  assert (validate_lines lines_int_keys (valid_orders orders_float_keys)
          = Ok ["Row 2: Parent Order # '1001' not found in Order Headers"]) as Hv
    by (vm_compute; reflexivity).
  split; [exact Hv|]. split; [vm_compute; reflexivity|].
  assert (∃ row, rows lines_int_keys !! 0%nat = Some row
                 ∧ get row "Parent Order #" VNone = VInt 1001)
    as (row & Hi & Hn) by (eexists; split; [reflexivity|vm_compute; reflexivity]).
  apply (float_keys_miss_int_keys orders_float_keys lines_int_keys _ 0 row 1001);
    [|exact Hv|exact Hi|exact Hn].
  apply Forall_forall. unfold rows, orders_float_keys.
  cbn [values columns fmap list_fmap].
  constructor; [right; exists (PyFloat.Fin false 1001 0); vm_compute; reflexivity|].
  constructor; [left; vm_compute; reflexivity|]. constructor.
Defined.

Lemma safe_str_key v s :
  safe_str v = Ok s → is_blank v = false → ¬ integral_float v →
  s = PyStr.strip (py_str v).
Proof.
  intros Hs [Hna Hne]%is_blank_false Hint. unfold safe_str in Hs. rewrite Hna in Hs.
  destruct v as [|t|n|[|neg|neg m e]|t]; try done; try by injection Hs as <-.
  cbn [PyFloat.to_int mbind result_bind PyFloat.eq_int] in Hs.
  destruct (PyFloat.is_integral m e) eqn:Hi.
  { destruct Hint. by exists neg, m, e. }
  cbn [andb] in Hs. injection Hs as <-. cbn [py_str]. by rewrite strip_float_text.
Qed.


Lemma elem_of_emitted label df row :
  row ∈ emitted label df ↔ row ∈ rows df ∧ row_key label row ≠ None.
Proof.
  unfold emitted. rewrite list_elem_of_filter, row_key_not_None. tauto.
Qed.

Lemma Forall2_elem_of_r {A B} (R : A → B → Prop) l k y :
  Forall2 R l k → y ∈ k → ∃ x, x ∈ l ∧ R x y.
Proof.
  intros HF (i & Hi)%list_elem_of_lookup.
  destruct (Forall2_lookup_r _ _ _ _ _ HF Hi) as (x & Hx & HR).
  exists x. split; [|done]. apply list_elem_of_lookup. by exists i.
Qed.

Lemma Forall2_elem_of_l {A B} (R : A → B → Prop) l k x :
  Forall2 R l k → x ∈ l → ∃ y, y ∈ k ∧ R x y.
Proof.
  intros HF (i & Hi)%list_elem_of_lookup.
  destruct (Forall2_lookup_l _ _ _ _ _ HF Hi) as (y & Hy & HR).
  exists y. split; [|done]. apply list_elem_of_lookup. by exists i.
Qed.

Lemma main_validation_clean df_orders df_lines :
  main_validation df_orders df_lines = Ok [] →
  validate_orders df_orders = Ok []
  ∧ validate_lines df_lines (valid_orders df_orders) = Ok [].
Proof.
  unfold main_validation. intros (oe & Ho & (le & Hl & [= H])%bind_Ok)%bind_Ok.
  apply app_eq_nil in H as [-> ->]. done.
Qed.

Lemma ordr_record_key row head :
  ordr_record row = Ok head → order_key row ≠ None →
  ¬ integral_float (get row "Order #" VNone) →
  head !! 0%nat = order_key row.
Proof.
  intros (a & b & c & d & e & f & Ha & _ & _ & _ & _ & _ & ->)%ordr_record_inv Hk Hint.
  apply row_key_not_None in Hk as Hb. unfold order_key, row_key. rewrite Hb.
  by rewrite <- (safe_str_key _ _ Ha Hb Hint).
Qed.

Lemma rdr1_record_key row item :
  rdr1_record row = Ok item → line_key row ≠ None →
  ¬ integral_float (get row "Parent Order #" VNone) →
  item !! 0%nat = line_key row.
Proof.
  intros (x1 & x2 & x3 & x4 & x5 & x6 & x7 & x8 & x9 & x10 & x11 & x12 & x13 & x14
          & x15 & x16 & Ha & _ & _ & _ & _ & _ & _ & _ & _ & _ & _ & _ & _ & _ & _ & _
          & ->)%rdr1_record_inv Hk Hint.
  apply row_key_not_None in Hk as Hb. unfold line_key, row_key. rewrite Hb.
  by rewrite <- (safe_str_key _ _ Ha Hb Hint).
Qed.

(** X14. When validation has passed and no key cell is a float with an
    integral value, the generated files are consistent: the ParentKey of
    every line record is the DocNum of some order record. *)
Theorem parent_keys_resolve df_orders df_lines heads items :
  main_validation df_orders df_lines = Ok [] →
  (∀ row, row ∈ rows df_orders → ¬ integral_float (get row "Order #" VNone)) →
  (∀ row, row ∈ rows df_lines → ¬ integral_float (get row "Parent Order #" VNone)) →
  Forall2 (λ row data, ordr_record row = Ok data) (emitted "Order #" df_orders) heads →
  Forall2 (λ row data, rdr1_record row = Ok data)
          (emitted "Parent Order #" df_lines) items →
  ∀ item, item ∈ items →
    ∃ head key, head ∈ heads ∧ head !! 0%nat = Some key ∧ item !! 0%nat = Some key.
Proof.
  intros [_ Hl]%main_validation_clean Hof Hlf Hheads Hitems item Hitem.
  destruct (Forall2_elem_of_r _ _ _ _ Hitems Hitem) as (line & Hline & Hrec).
  apply elem_of_emitted in Hline as [Hin Hk].
  apply list_elem_of_lookup in Hin as Hi. destruct Hi as [i Hi].
  destruct (lines_clean_row _ _ _ _ Hl Hi Hk) as (Hvalid & _).
  pose proof (rdr1_record_key _ _ Hrec Hk (Hlf _ Hin)) as Hitem0.
  apply row_key_not_None in Hk as Hb. pose proof Hb as [_ Hne]%is_blank_false.
  apply valid_orders_order_keys in Hvalid; [|done].
  apply elem_of_order_keys_of in Hvalid as (j & order & Hj & Hko).
  assert (order ∈ emitted "Order #" df_orders) as Hemit.
  { apply elem_of_emitted. split; [apply list_elem_of_lookup; by exists j|].
    unfold order_key in Hko. by rewrite Hko. }
  destruct (Forall2_elem_of_l _ _ _ _ Hheads Hemit) as (head & Hhead & Hrec').
  exists head, (PyStr.strip (py_str (get line "Parent Order #" VNone))).
  split; [done|]. split.
  - rewrite (ordr_record_key _ _ Hrec'); [done|by rewrite Hko|].
    apply Hof, list_elem_of_lookup. by exists j.
  - rewrite Hitem0. unfold line_key, row_key. by rewrite Hb.
Qed.

Lemma emitted_cons_keep label labels cells rest :
  is_blank (get (series labels cells) label VNone) = false →
  emitted label {| columns := labels; values := cells :: rest |}
  = series labels cells :: emitted label {| columns := labels; values := rest |}.
Proof.
  intros Hb. unfold emitted, rows. cbn [values columns fmap list_fmap].
  rewrite filter_cons. by destruct (decide _).
Qed.

Lemma emitted_nil label labels :
  emitted label {| columns := labels; values := [] |} = [].
Proof. done. Qed.

Lemma not_integral_cell v :
  match v with VFloat _ => false | _ => true end = true → ¬ integral_float v.
Proof. by intros Hv (? & ? & ? & -> & _). Qed.

(** The records of the two correct example tables, and their keys. *)
Lemma orders_clean_records :
  ∃ head_a head_b,
    Forall2 (λ row data, ordr_record row = Ok data)
            (emitted "Order #" orders_clean) [head_a; head_b].
Proof.
  unfold orders_clean. rewrite !emitted_cons_keep by (vm_compute; reflexivity).
  rewrite emitted_nil. eexists _, _. repeat constructor; vm_compute; reflexivity.
Qed.

Lemma lines_clean_records :
  ∃ item_a item_b,
    Forall2 (λ row data, rdr1_record row = Ok data)
            (emitted "Parent Order #" lines_clean) [item_a; item_b].
Proof.
  unfold lines_clean. rewrite !emitted_cons_keep by (vm_compute; reflexivity).
  rewrite emitted_nil. eexists _, _. repeat constructor; vm_compute; reflexivity.
Qed.

Lemma orders_clean_keys row :
  row ∈ rows orders_clean → ¬ integral_float (get row "Order #" VNone).
Proof.
  revert row. apply Forall_forall. unfold rows, orders_clean.
  cbn [values columns fmap list_fmap].
  repeat (constructor; [apply not_integral_cell; vm_compute; reflexivity|]).
  constructor.
Qed.

Lemma lines_clean_keys row :
  row ∈ rows lines_clean → ¬ integral_float (get row "Parent Order #" VNone).
Proof.
  revert row. apply Forall_forall. unfold rows, lines_clean.
  cbn [values columns fmap list_fmap].
  repeat (constructor; [apply not_integral_cell; vm_compute; reflexivity|]).
  constructor.
Qed.

Lemma parent_keys_resolve_witness :
  ∃ heads items,
    Forall2 (λ row data, ordr_record row = Ok data) (emitted "Order #" orders_clean) heads
    ∧ Forall2 (λ row data, rdr1_record row = Ok data)
              (emitted "Parent Order #" lines_clean) items
    ∧ length items = 2%nat
    ∧ ∀ item, item ∈ items →
        ∃ head key, head ∈ heads ∧ head !! 0%nat = Some key ∧ item !! 0%nat = Some key.
Proof.
  destruct orders_clean_records as (head_a & head_b & Hheads).
  destruct lines_clean_records as (item_a & item_b & Hitems).
  exists [head_a; head_b], [item_a; item_b].
  split; [exact Hheads|]. split; [exact Hitems|]. split; [reflexivity|].
  apply (parent_keys_resolve orders_clean lines_clean [head_a; head_b] [item_a; item_b]);
    [vm_compute; reflexivity|exact orders_clean_keys|exact lines_clean_keys
    |exact Hheads|exact Hitems].
Defined.

(** * What passing validation says about the order file *)

Lemma seen_after_one seen row k :
  k ∈ seen_after seen [row] ↔ k ∈ seen ∨ order_key row = Some k.
Proof.
  unfold seen_after. cbn [omap list_omap]. destruct (order_key row) as [k'|].
  - cbn [list_to_set]. set_solver.
  - cbn [list_to_set]. set_solver.
Qed.

Lemma orders_errors_nil seen its :
  orders_errors seen its = [] →
  NoDup (omap order_key its.*2) ∧ ∀ k, k ∈ omap order_key its.*2 → k ∉ seen.
Proof.
  revert seen. induction its as [|[idx row] its IH]; intros seen; cbn [orders_errors].
  { intros _. split; [constructor|]. by intros k ?%elem_of_nil. }
  intros [Hrow Hrest]%app_eq_nil. apply IH in Hrest as [Hnd Hseen].
  cbn [fmap list_fmap snd omap list_omap] in *.
  destruct (order_key row) as [k|] eqn:Hk.
  - assert (k ∉ seen) as Hnew.
    { intros Hin. apply row_key_Some in Hk as Hk'. destruct Hk' as [Hb Hkeq].
      unfold row_errors in Hrow. cbn [fst snd] in Hrow. rewrite Hb in Hrow.
      apply fmap_nil_inv in Hrow.
      assert ("Duplicate Order # '" +:+ k +:+ "'" ∈ order_texts seen row) as Hd
        by by apply duplicate_text.
      rewrite Hrow in Hd. by apply elem_of_nil in Hd. }
    split.
    + constructor; [|done]. intros Hin. apply (Hseen k Hin).
      apply seen_after_one. by right.
    + intros k' [->|Hin]%elem_of_cons; [done|].
      intros Hs. apply (Hseen k' Hin). apply seen_after_one. by left.
  - split; [done|]. intros k' Hin Hs. apply (Hseen k' Hin).
    apply seen_after_one. by left.
Qed.

Lemma validated_keys_NoDup df :
  validate_orders df = Ok [] → NoDup (omap order_key (rows df)).
Proof.
  unfold validate_orders. destruct (empty df); [done|].
  intros ([errs seen] & Hv & H)%fmap_Ok. cbn [fst] in H. subst errs.
  apply validate_orders_loop in Hv. cbn [app] in Hv. symmetry in Hv.
  apply orders_errors_nil in Hv as [Hnd _]. by rewrite iterrows_rows in Hnd.
Qed.

Lemma omap_row_key label (l : list Series) :
  Some <$> omap (row_key label) l
  = row_key label <$> filter (λ row, is_blank (get row label VNone) = false) l.
Proof.
  induction l as [|row l IH]; [done|]. cbn [omap list_omap]. unfold filter. cbn [list_filter].
  fold (filter (λ row, is_blank (get row label VNone) = false) l).
  unfold row_key at 1. destruct (decide _) as [Hb|Hb].
  - rewrite Hb. cbn [fmap list_fmap]. fold (omap (row_key label) l).
    rewrite <- IH. unfold row_key at 2. by rewrite Hb.
  - apply not_false_is_true in Hb. rewrite Hb. apply IH.
Qed.

Lemma record_keys df heads :
  (∀ row, row ∈ rows df → ¬ integral_float (get row "Order #" VNone)) →
  Forall2 (λ row data, ordr_record row = Ok data) (emitted "Order #" df) heads →
  (λ head : list string, head !! 0%nat) <$> heads
  = Some <$> omap order_key (rows df).
Proof.
  intros Hint HF. unfold order_key at 1. rewrite omap_row_key.
  fold (emitted "Order #" df).
  assert (∀ row, row ∈ emitted "Order #" df →
            order_key row ≠ None ∧ ¬ integral_float (get row "Order #" VNone)) as Hrows.
  { intros row [Hin Hk]%elem_of_emitted. split; [done|]. by apply Hint. }
  induction HF as [|row head l k Hrec _ IH]; [done|]. cbn [fmap list_fmap]. f_equal.
  - destruct (Hrows row) as [Hk Hni]; [by left|]. by apply ordr_record_key.
  - apply IH. intros row' Hin. apply Hrows. by right.
Qed.

(** X15. When [validate_orders] has passed and no Order # cell is a float
    with an integral value, the order records of the generated file have
    pairwise different DocNum fields. *)
Theorem order_numbers_distinct df heads (a b : nat) head_a head_b :
  validate_orders df = Ok [] →
  (∀ row, row ∈ rows df → ¬ integral_float (get row "Order #" VNone)) →
  Forall2 (λ row data, ordr_record row = Ok data) (emitted "Order #" df) heads →
  heads !! a = Some head_a → heads !! b = Some head_b →
  head_a !! 0%nat = head_b !! 0%nat →
  a = b.
Proof.
  intros Hv Hint HF Ha Hb Heq.
  assert (NoDup ((λ head : list string, head !! 0%nat) <$> heads)) as Hnd.
  { rewrite (record_keys df heads Hint HF).
    apply (NoDup_fmap_2 Some). by apply validated_keys_NoDup. }
  apply (NoDup_lookup _ a b (head_a !! 0%nat) Hnd).
  - by rewrite list_lookup_fmap, Ha.
  - by rewrite list_lookup_fmap, Hb, Heq.
Qed.

Lemma order_numbers_distinct_witness :
  ∃ head_a head_b,
    Forall2 (λ row data, ordr_record row = Ok data)
            (emitted "Order #" orders_clean) [head_a; head_b]
    ∧ head_a !! 0%nat ≠ head_b !! 0%nat.
Proof.
  destruct orders_clean_records as (head_a & head_b & Hheads).
  exists head_a, head_b. split; [exact Hheads|]. intros Heq.
  assert (0%nat = 1%nat) as Hab; [|discriminate Hab].
  apply (order_numbers_distinct orders_clean [head_a; head_b] 0 1 head_a head_b);
    [vm_compute; reflexivity|exact orders_clean_keys|exact Hheads
    |reflexivity|reflexivity|exact Heq].
Defined.




(** * The counts of the preview *)

Lemma filter_length_le {A} (P Q : A → Prop) `{∀ x, Decision (P x)} `{∀ x, Decision (Q x)}
    (l : list A) :
  (∀ x, P x → Q x) →
  (length (filter P l) ≤ length (filter Q l))%nat
  ∧ (length (filter P l) = length (filter Q l) ↔ ∀ x, x ∈ l → Q x → P x).
Proof.
  intros HPQ. induction l as [|x l [IH1 IH2]].
  { split; [done|]. split; [|done]. by intros _ x ?%elem_of_nil. }
  rewrite !filter_cons. pose proof (length_filter Q l).
  destruct (decide (P x)) as [HP|HP], (decide (Q x)) as [HQ|HQ]; cbn [length].
  - split; [lia|]. split.
    + intros Hl x' [->|Hin]%elem_of_cons; [done|]. apply IH2; [lia|done].
    + intros Hall. f_equal. apply IH2. intros x' Hin. apply Hall. by right.
  - destruct HQ. by apply HPQ.
  - split; [lia|]. split; [lia|]. intros Hall. destruct HP. apply Hall; [by left|done].
  - split; [lia|]. split.
    + intros Hl x' [->|Hin]%elem_of_cons; [done|]. by apply IH2.
    + intros Hall. apply IH2. intros x' Hin. apply Hall. by right.
Qed.

(** X17. The count that [main] shows in the preview, the rows whose key
    cell is not null, is never smaller than the number of records the
    generator writes for the table, and it is larger exactly when some key
    cell is not null but trims to nothing: such a row is counted and then
    skipped. *)
Theorem preview_count_vs_records label df n :
  notna_count label df = Some n →
  (length (emitted label df) ≤ n)%nat
  ∧ (length (emitted label df) = n
     ↔ ∀ row, row ∈ rows df → pd_isna (get row label VNone) = false →
              PyStr.strip (py_str (get row label VNone)) ≠ "").
Proof.
  unfold notna_count. destruct (bool_decide _); [|done]. intros [= <-].
  unfold emitted.
  destruct (filter_length_le (λ row, is_blank (get row label VNone) = false)
              (λ row, pd_notna (get row label VNone) = true) (rows df)) as [Hle Heq].
  { intros row [Hna _]%is_blank_false. unfold pd_notna. by rewrite Hna. }
  split; [done|]. rewrite Heq. split.
  - intros Hall row Hin Hna.
    destruct (is_blank_false (get row label VNone)) as [Hb _].
    apply Hb, Hall; [done|]. unfold pd_notna. by rewrite Hna.
  - intros Hall row Hin Hna. apply is_blank_false.
    unfold pd_notna in Hna. apply negb_true_iff in Hna. split; [done|]. by apply Hall.
Qed.

Lemma preview_count_vs_records_witness :
  notna_count "Order #" blank_rows = Some 1%nat
  ∧ length (emitted "Order #" blank_rows) = 0%nat
  ∧ (length (emitted "Order #" blank_rows) ≤ 1)%nat.
Proof.
  split; [vm_compute; reflexivity|]. split; [vm_compute; reflexivity|].
  apply (preview_count_vs_records "Order #" blank_rows 1). vm_compute. reflexivity.
Defined.

(** * Field positions and header labels *)

(** X18. Every position of [RDR1_FIELDS] carries the name of its field in
    the first header line of the line file, and so does every position of
    [ORDR_FIELDS] in the order file but one: position 198, where the
    constant "Y" of [U_AllowDOInv_Dep] is written, is headed
    [U_Appr_LowSlsPrice] in the first header line, in which
    [U_AllowDOInv_Dep] stands at position 194; only the second header line
    names position 198 [U_AllowDOInv_Dep]. *)
Theorem field_positions_and_headers :
  Forall (λ p : string * nat, RDR1_HEADER_ROW1 !! p.2 = Some p.1)
         (map_to_list RDR1_FIELDS)
  ∧ Forall (λ p : string * nat,
              p.1 ≠ "U_AllowDOInv_Dep" → ORDR_HEADER_ROW1 !! p.2 = Some p.1)
           (map_to_list ORDR_FIELDS)
  ∧ ORDR_FIELDS !! "U_AllowDOInv_Dep" = Some 198%nat
  ∧ ORDR_HEADER_ROW1 !! 198%nat = Some "U_Appr_LowSlsPrice"
  ∧ ORDR_HEADER_ROW1 !! 194%nat = Some "U_AllowDOInv_Dep"
  ∧ ORDR_HEADER_ROW2 !! 198%nat = Some "U_AllowDOInv_Dep".
Proof.
  split; [|split].
  - apply Forall_forall. intros p Hp.
    assert (forallb (λ p : string * nat,
                       bool_decide (RDR1_HEADER_ROW1 !! p.2 = Some p.1))
                    (map_to_list RDR1_FIELDS) = true) as Hall by (vm_compute; reflexivity).
    rewrite forallb_forall in Hall. apply list_elem_of_In, Hall in Hp.
    by apply bool_decide_eq_true in Hp.
  - apply Forall_forall. intros p Hp Hne.
    assert (forallb (λ p : string * nat,
                       bool_decide (p.1 = "U_AllowDOInv_Dep")
                       || bool_decide (ORDR_HEADER_ROW1 !! p.2 = Some p.1))
                    (map_to_list ORDR_FIELDS) = true) as Hall by (vm_compute; reflexivity).
    rewrite forallb_forall in Hall. apply list_elem_of_In, Hall in Hp.
    apply orb_true_iff in Hp as [Hp|Hp]; [by apply bool_decide_eq_true in Hp|].
    by apply bool_decide_eq_true in Hp.
  - repeat split; vm_compute; reflexivity.
Qed.

(** * The columns validation reads *)







(** * The order of the errors *)

Lemma row_ordered_nil low : row_ordered low [].
Proof. split; [by intros e ?%elem_of_nil|]. intros a b ? ? ? ? H. by destruct a. Qed.

Lemma row_ordered_app low block rest :
  (∀ e, e ∈ block → ∃ t, e = Row low t) →
  row_ordered (low + 1) rest →
  row_ordered low (block ++ rest).
Proof.
  intros Hblock [Hlow Hord]. split.
  - intros e [He|He]%elem_of_app.
    + destruct (Hblock e He) as [t ->]. exists low, t. split; [done|lia].
    + destruct (Hlow e He) as (n & t & -> & ?). exists n, t. split; [done|lia].
  - intros a b n1 t1 n2 t2 Ha Hb Hab.
    assert (∀ (i : nat) n t, block !! i = Some (Row n t) → n = low) as Hin.
    { intros i n t Hi. destruct (Hblock (Row n t)) as [t' Ht'].
      - apply list_elem_of_lookup. by exists i.
      - by apply Row_inj in Ht' as [-> _]. }
    assert (∀ (i : nat) n t, rest !! i = Some (Row n t) → low + 1 ≤ n) as Hout.
    { intros i n t Hi. destruct (Hlow (Row n t)) as (n' & t' & Ht' & ?).
      - apply list_elem_of_lookup. by exists i.
      - by apply Row_inj in Ht' as [-> _]. }
    apply lookup_app_Some in Ha as [Ha|[Hla Ha]];
      apply lookup_app_Some in Hb as [Hb|[Hlb Hb]].
    + apply Hin in Ha, Hb. lia.
    + apply Hin in Ha. apply Hout in Hb. lia.
    + apply lookup_lt_Some in Hb. lia.
    + apply (Hord _ _ _ _ _ _ Ha Hb). lia.
Qed.

Lemma row_errors_block label texts it e :
  e ∈ row_errors label texts it → ∃ t, e = Row (Z.of_nat it.1 + 2) t.
Proof. intros (_ & t & -> & _)%elem_of_row_errors_inv. by exists t. Qed.

Lemma orders_errors_ordered off seen (l : list Series) :
  row_ordered (Z.of_nat off + 2)
    (orders_errors seen (imap (λ i r, ((off + i)%nat, r)) l)).
Proof.
  revert off seen. induction l as [|row l IH]; intros off seen.
  { apply row_ordered_nil. }
  rewrite iterrows_from. cbn [orders_errors]. apply row_ordered_app.
  - intros e He%row_errors_block. cbn [fst] in He. done.
  - replace (Z.of_nat off + 2 + 1) with (Z.of_nat (S off) + 2) by lia. apply IH.
Qed.

Lemma lines_errors_ordered valid off (l : list Series) :
  row_ordered (Z.of_nat off + 2)
    (imap (λ i r, ((off + i)%nat, r)) l
       ≫= row_errors "Parent Order #" (line_texts valid)).
Proof.
  revert off. induction l as [|row l IH]; intros off.
  { apply row_ordered_nil. }
  rewrite iterrows_from. cbn [mbind list_bind]. apply row_ordered_app.
  - intros e He%row_errors_block. cbn [fst] in He. done.
  - replace (Z.of_nat off + 2 + 1) with (Z.of_nat (S off) + 2) by lia. apply IH.
Qed.

(** X20. The errors of a table that is not empty come in row order: in
    the list [validate_orders] or [validate_lines] returns, every error
    holds a row number of at least 2, and an error later in the list never
    holds a smaller row number than an earlier one, so the messages of one
    row stand together. *)
Theorem errors_in_row_order df valid errors :
  empty df = false →
  (validate_orders df = Ok errors → row_ordered 2 errors)
  ∧ (validate_lines df valid = Ok errors → row_ordered 2 errors).
Proof.
  intros Hem. split; intros Hv.
  - unfold validate_orders in Hv. rewrite Hem in Hv.
    apply fmap_Ok in Hv as ([errs seen] & Hv & ->).
    apply validate_orders_loop in Hv as ->. cbn [app fst].
    apply (orders_errors_ordered 0 ∅ (rows df)).
  - unfold validate_lines in Hv. rewrite Hem in Hv.
    apply validate_lines_loop in Hv as ->. cbn [app].
    apply (lines_errors_ordered valid 0 (rows df)).
Qed.

Lemma errors_in_row_order_witness :
  validate_orders orders_faulty
    = Ok ["Row 3: Document Date must be YYYYMMDD format";
          "Row 3: Due Date is required";
          "Row 3: Customer Code is required";
          "Row 3: Sales Code is required"]
  ∧ row_ordered 2 ["Row 3: Document Date must be YYYYMMDD format";
                   "Row 3: Due Date is required";
                   "Row 3: Customer Code is required";
                   "Row 3: Sales Code is required"].
Proof.
  assert (validate_orders orders_faulty
          = Ok ["Row 3: Document Date must be YYYYMMDD format";
                "Row 3: Due Date is required";
                "Row 3: Customer Code is required";
                "Row 3: Sales Code is required"]) as Hv by (vm_compute; reflexivity).
  split; [exact Hv|].
  apply (proj1 (errors_in_row_order orders_faulty ∅ _ ltac:(reflexivity)) Hv).
Defined.
